(** * DoubleML data backend ([double_ml_data.py]) and the checks its callers expect

    A shallow embedding of the class [DoubleMLData]: the column-role setters,
    [__init__], [from_arrays], the private slicers [_set_y_z] and [_set_x_d],
    and the accessors [x], [y], [d], [z], [n_instr], [n_obs].

    Conventions of the embedding.
    - Python values that reach a setter are of type [pyval]; column labels of a
      data frame are strings.
    - A Python exception is a value [Exc cls msg]; code that may raise returns
      [result A], either [Ok a] or [Raise e].
    - A 2-D [numpy] array is kept column by column: [Arr2 n cols] has shape
      [(n, length cols)]; a 1-D array is [Arr1 v] of shape [(length v,)].
    - A [pandas.DataFrame] is its number of rows and its labelled columns in
      column order.  The element type [V] of arrays and frames is left open:
      the class only moves values around.  All arrays handed to one call have
      this one element type; what [numpy] does when it stacks arrays of
      different dtypes is not part of the model.
    - A string is a sequence of 8-bit characters, so that iterating a label
      is Python's iteration for ASCII labels.
    - The texts of messages that come from [numpy] and [pandas] are shortened
      stand-ins; the class of such an exception is the one raised. *)

From Stdlib Require Import ZArith QArith Lia Ascii.
From stdpp Require Import base option list strings gmap pretty.

Set Warnings "-register-all,-clear-no-such-hyp".

Local Open Scope string_scope.
Local Open Scope list_scope.

(** ** Python values, exceptions, results *)

Inductive pyval : Type :=
| PyNone
| PyBool (b : bool)
| PyInt (z : Z)
| PyFloat (q : Q)
| PyStr (s : string)
| PyList (l : list pyval).

(** [type(v).__name__] *)
Definition type_name (v : pyval) : string :=
  match v with
  | PyNone => "NoneType"
  | PyBool _ => "bool"
  | PyInt _ => "int"
  | PyFloat _ => "float"
  | PyStr _ => "str"
  | PyList _ => "list"
  end.

(** Lists are the only unhashable values of [pyval]. *)
Definition hashable (v : pyval) : bool :=
  match v with PyList _ => false | _ => true end.

Inductive exc_class : Type :=
| TypeError | ValueError | AssertionError | IndexError | KeyError
| AttributeError | NotImplementedError.

Record pyexc : Type := Exc { exc_type : exc_class; exc_msg : string }.

Inductive result (A : Type) : Type :=
| Ok (a : A)
| Raise (e : pyexc).
Arguments Ok {A} a.
Arguments Raise {A} e.

(** Sequencing: the first exception raised ends the computation. *)
Global Instance result_ret : MRet result := λ A a, Ok a.
Global Instance result_bind : MBind result := λ A B k r,
  match r with
  | Ok a => k a
  | Raise e => Raise e
  end.

Definition is_ok {A : Type} (r : result A) : bool :=
  match r with Ok _ => true | Raise _ => false end.

(** A bare [assert cond] raises [AssertionError] with an empty message. *)
Definition assert_ (cond : bool) : result unit :=
  if cond then Ok tt else Raise (Exc AssertionError "").

(** [name] occurs somewhere in [msg]. *)
Fixpoint mentions (name msg : string) : bool :=
  String.prefix name msg ||
  match msg with
  | EmptyString => false
  | String _ rest => mentions name rest
  end.

(** ** Strings as Python sees them *)

(** Iterating a [str] yields its one-character substrings: [set('ab')] is
    [{'a', 'b'}]. *)
Fixpoint chars (s : string) : list string :=
  match s with
  | EmptyString => []
  | String c rest => String c EmptyString :: chars rest
  end.

(** [list.remove(x)]: drop the first occurrence, [None] (a [ValueError]) when
    there is none. *)
Fixpoint list_remove (x : string) (l : list string) : option (list string) :=
  match l with
  | [] => None
  | y :: l' =>
      if decide (y = x) then Some l'
      else cons y <$> list_remove x l'
  end.

(** [f'{prefix}{i+1}' for i in np.arange(k)] *)
Definition numbered (pre : string) (k : nat) : list string :=
  map (λ i : nat, pre +:+ pretty (S i)) (seq 0 k).

(** ** Arrays and data frames *)

Section Data.
Context {V : Type}.

Inductive ndarray : Type :=
| Arr1 (v : list V)
| Arr2 (n : nat) (cols : list (list V)).

(** [a.shape[0]] *)
Definition shape0 (a : ndarray) : nat :=
  match a with
  | Arr1 v => length v
  | Arr2 n _ => n
  end.

(** [a.shape[1]]; a 1-D array has a 1-tuple as shape. *)
Definition shape1 (a : ndarray) : result nat :=
  match a with
  | Arr1 _ => Raise (Exc IndexError "tuple index out of range")
  | Arr2 _ cols => Ok (length cols)
  end.

(** Modelled from the spec: the helper [assure_2d_array] of [_helper] is not
    among the sources; by its name and its use in [from_arrays] it hands back
    a 2-D array, turning a 1-D array of length n into an n-by-1 array and
    leaving a 2-D array as it is. *)
Definition assure_2d_array (a : ndarray) : result ndarray :=
  match a with
  | Arr1 v => Ok (Arr2 (length v) [v])
  | Arr2 n cols => Ok (Arr2 n cols)
  end.

(** The columns an array contributes to [np.column_stack]. *)
Definition as_columns (a : ndarray) : list (list V) :=
  match a with
  | Arr1 v => [v]
  | Arr2 _ cols => cols
  end.

(** [np.column_stack(arrays)]: all arrays must agree on the first dimension. *)
Definition column_stack (arrays : list ndarray) : result ndarray :=
  match arrays with
  | [] => Raise (Exc ValueError "need at least one array to concatenate")
  | a :: _ =>
      if forallb (λ b, Nat.eqb (shape0 b) (shape0 a)) arrays
      then Ok (Arr2 (shape0 a) (concat (map as_columns arrays)))
      else Raise (Exc ValueError "all the input array dimensions except for the concatenation axis must match exactly")
  end.

Record DataFrame : Type := mkFrame {
  df_rows : nat;
  df_cols : list (string * list V)
}.

(** [data.columns] *)
Definition columns (df : DataFrame) : list string := map fst (df_cols df).

(** [pd.DataFrame(arr, columns=names)] *)
Definition pd_DataFrame (a : ndarray) (names : list string) : result DataFrame :=
  match a with
  | Arr1 v => Raise (Exc ValueError "Shape of passed values does not match columns")
  | Arr2 n cols =>
      if Nat.eqb (length cols) (length names)
      then Ok (mkFrame n (zip names cols))
      else Raise (Exc ValueError "Shape of passed values does not match columns")
  end.

(** What [data.loc[:, key]] yields: a [Series] for a label carried by one
    column, a frame otherwise. *)
Inductive selection : Type :=
| Series (v : list V)
| Frame (df : DataFrame).

(** All columns of [df] labelled [c], in frame order. *)
Definition matching (df : DataFrame) (c : string) : list (string * list V) :=
  filter (λ p, p.1 = c) (df_cols df).

(** [data.loc[:, label]] *)
Definition loc_label (df : DataFrame) (c : string) : result selection :=
  match matching df c with
  | [] => Raise (Exc KeyError c)
  | [(_, v)] => Ok (Series v)
  | cs => Ok (Frame (mkFrame (df_rows df) cs))
  end.

(** [data.loc[:, labels]] for a list of labels: the matching columns label by
    label, [KeyError] on a label no column carries. *)
Fixpoint loc_cols (df : DataFrame) (labels : list string)
  : result (list (string * list V)) :=
  match labels with
  | [] => Ok []
  | c :: rest =>
      match matching df c with
      | [] => Raise (Exc KeyError c)
      | cs => tl ← loc_cols df rest; Ok (cs ++ tl)
      end
  end.

Definition loc_list (df : DataFrame) (labels : list string) : result DataFrame :=
  cs ← loc_cols df labels; Ok (mkFrame (df_rows df) cs).

(** [.values] *)
Definition frame_values (df : DataFrame) : ndarray :=
  Arr2 (df_rows df) (map snd (df_cols df)).

Definition values (s : selection) : ndarray :=
  match s with
  | Series v => Arr1 v
  | Frame df => frame_values df
  end.

End Data.

Arguments ndarray V : clear implicits.
Arguments DataFrame V : clear implicits.
Arguments selection V : clear implicits.

(** ** The class [DoubleMLData] *)

Section DoubleMLData.
Context {V : Type}.

(** Attributes of an instance.  [_y], [_z], [_d] and [_X] are the slices kept
    by [_set_y_z] and [_set_x_d]. *)
Record DoubleMLData : Type := mkData {
  data : DataFrame V;
  _y_col : string;
  _d_cols : list string;
  _x_cols : list string;
  _z_cols : option (list string);
  use_other_treat_as_covariate : bool;
  _y : selection V;
  _z : option (DataFrame V);
  _d : selection V;
  _X : DataFrame V
}.

(** [all_variables] *)
Definition all_variables (self : DoubleMLData) : list string := columns (data self).

(** *** Setters *)

Definition label_of (v : pyval) : option string :=
  match v with PyStr s => Some s | _ => None end.

(** [set(value).issubset(set(all_variables))] for the elements of a list: a
    value equals a column label only if it is that string. *)
Definition issubset (l : list pyval) (vars : list string) : bool :=
  forallb (λ v, match v with
                | PyStr s => bool_decide (s ∈ vars)
                | _ => false
                end) l.

(** Body shared by the setters of [x_cols], [d_cols] and (for a value that is
    not [None]) [z_cols]; [name] is the property's name.  The list stored is
    given by its labels: past the assertion every element is a string. *)
Definition cols_value (name : string) (vars : list string) (value : pyval)
  : result (list string) :=
  let value := match value with PyStr s => PyList [PyStr s] | _ => value end in
  match value with
  | PyList l =>
      if forallb hashable l then
        _ ← assert_ (issubset l vars);
        Ok (omap label_of l)
      else Raise (Exc TypeError "unhashable type: 'list'")
  | _ => Raise (Exc TypeError (name +:+ " must be a list"))
  end.

(** The setter of [y_col]: [assert isinstance(value, str)], then
    [assert value in self.all_variables]; neither assertion has a message. *)
Definition y_col_value (vars : list string) (value : pyval) : result string :=
  match value with
  | PyStr s => _ ← assert_ (bool_decide (s ∈ vars)); Ok s
  | _ => Raise (Exc AssertionError "")
  end.

(** The setter of [z_cols]: [None] is stored as it is. *)
Definition z_cols_value (vars : list string) (value : pyval)
  : result (option (list string)) :=
  match value with
  | PyNone => Ok None
  | _ => l ← cols_value "z_cols" vars value; Ok (Some l)
  end.

Definition set_x_cols (self : DoubleMLData) (value : pyval) : result DoubleMLData :=
  l ← cols_value "x_cols" (all_variables self) value;
  Ok (mkData (data self) (_y_col self) (_d_cols self) l (_z_cols self)
        (use_other_treat_as_covariate self) (_y self) (_z self) (_d self) (_X self)).

Definition set_d_cols (self : DoubleMLData) (value : pyval) : result DoubleMLData :=
  l ← cols_value "d_cols" (all_variables self) value;
  Ok (mkData (data self) (_y_col self) l (_x_cols self) (_z_cols self)
        (use_other_treat_as_covariate self) (_y self) (_z self) (_d self) (_X self)).

Definition set_y_col (self : DoubleMLData) (value : pyval) : result DoubleMLData :=
  s ← y_col_value (all_variables self) value;
  Ok (mkData (data self) s (_d_cols self) (_x_cols self) (_z_cols self)
        (use_other_treat_as_covariate self) (_y self) (_z self) (_d self) (_X self)).

Definition set_z_cols (self : DoubleMLData) (value : pyval) : result DoubleMLData :=
  z ← z_cols_value (all_variables self) value;
  Ok (mkData (data self) (_y_col self) (_d_cols self) (_x_cols self) z
        (use_other_treat_as_covariate self) (_y self) (_z self) (_d self) (_X self)).

(** *** Slicers *)

Definition _set_y_z (self : DoubleMLData) : result DoubleMLData :=
  y ← loc_label (data self) (_y_col self);
  z ← match _z_cols self with
      | None => Ok None
      | Some zc => f ← loc_list (data self) zc; Ok (Some f)
      end;
  Ok (mkData (data self) (_y_col self) (_d_cols self) (_x_cols self) (_z_cols self)
        (use_other_treat_as_covariate self) y z (_d self) (_X self)).

Definition _set_x_d (self : DoubleMLData) (treatment_var : string)
  : result DoubleMLData :=
  _ ← assert_ (bool_decide (treatment_var ∈ _d_cols self));
  xd_list ←
    (if use_other_treat_as_covariate self then
       match list_remove treatment_var (_x_cols self ++ _d_cols self) with
       | Some l => Ok l
       | None => Raise (Exc ValueError "list.remove(x): x not in list")
       end
     else Ok (_x_cols self));
  d ← loc_label (data self) treatment_var;
  X ← loc_list (data self) xd_list;
  Ok (mkData (data self) (_y_col self) (_d_cols self) (_x_cols self) (_z_cols self)
        (use_other_treat_as_covariate self) (_y self) (_z self) d X).

(** *** [__init__] *)

(** [x_cols=None]: every column that is not in the union of [set(y_col)],
    [set(d_cols)] and, when given, [set(z_cols)]. *)
Definition default_x_cols (df : DataFrame V) (y_col : string)
    (d_cols : list string) (z_cols : option (list string)) : list string :=
  match z_cols with
  | Some zc =>
      let y_d_z : gset string :=
        list_to_set (chars y_col) ∪ list_to_set d_cols ∪ list_to_set zc in
      filter (λ col, col ∉ y_d_z) (columns df)
  | None =>
      let y_d : gset string :=
        list_to_set (chars y_col) ∪ list_to_set d_cols in
      filter (λ col, col ∉ y_d) (columns df)
  end.

(** The four slice attributes do not exist before [_set_y_z] and [_set_x_d]
    ran; [__init__] returns only after both did, so the empty slices below are
    never observed. *)
Definition __init__ (df : DataFrame V) (y_col d_cols x_cols z_cols : pyval)
    (use_other : bool) : result DoubleMLData :=
  yc ← y_col_value (columns df) y_col;
  dc ← cols_value "d_cols" (columns df) d_cols;
  zc ← z_cols_value (columns df) z_cols;
  xc ← match x_cols with
       | PyNone =>
           cols_value "x_cols" (columns df)
             (PyList (PyStr <$> default_x_cols df yc dc zc))
       | _ => cols_value "x_cols" (columns df) x_cols
       end;
  self ← _set_y_z (mkData df yc dc xc zc use_other
                     (Series []) None (Series []) (mkFrame 0 []));
  match _d_cols self with
  | [] => Raise (Exc IndexError "list index out of range")
  | t :: _ => _set_x_d self t
  end.

(** *** Accessors *)

Definition x (self : DoubleMLData) : ndarray V := frame_values (_X self).
Definition y (self : DoubleMLData) : ndarray V := values (_y self).
Definition d (self : DoubleMLData) : ndarray V := values (_d self).

Definition z (self : DoubleMLData) : result (option (ndarray V)) :=
  match _z_cols self with
  | Some _ =>
      match _z self with
      | Some f => Ok (Some (frame_values f))
      | None => Raise (Exc AttributeError "'NoneType' object has no attribute 'values'")
      end
  | None => Ok None
  end.

Definition n_treat (self : DoubleMLData) : nat := length (_d_cols self).

(** [len(self.z_cols)]: [len(None)] is a [TypeError]. *)
Definition n_instr (self : DoubleMLData) : result nat :=
  match _z_cols self with
  | Some zc => Ok (length zc)
  | None => Raise (Exc TypeError "object of type 'NoneType' has no len()")
  end.

Definition n_obs (self : DoubleMLData) : nat := df_rows (data self).

(** *** [from_arrays] *)

Definition from_arrays (X y d : ndarray V) (z : option (ndarray V))
    (use_other : bool) : result DoubleMLData :=
  X ← assure_2d_array X;
  d ← assure_2d_array d;
  let y_col := "y" in
  z_cols ← match z with
           | None => Ok None
           | Some za =>
               k ← shape1 za;
               if Nat.eqb k 1 then Ok (Some ["z"])
               else Ok (Some (numbered "z" k))
           end;
  kd ← shape1 d;
  let d_cols := if Nat.eqb kd 1 then ["d"] else numbered "d" kd in
  p ← shape1 X;
  let x_cols := numbered "X" p in
  df ← match z, z_cols with
       | Some za, Some zc =>
           a ← column_stack [X; y; d; za];
           pd_DataFrame a (x_cols ++ [y_col] ++ d_cols ++ zc)
       | _, _ =>
           a ← column_stack [X; y; d];
           pd_DataFrame a (x_cols ++ [y_col] ++ d_cols)
       end;
  __init__ df (PyStr y_col) (PyList (PyStr <$> d_cols)) (PyList (PyStr <$> x_cols))
    (match z_cols with
     | Some zc => PyList (PyStr <$> zc)
     | None => PyNone
     end) use_other.

End DoubleMLData.

Arguments DoubleMLData V : clear implicits.


(** ** Properties of instances *)

Section Properties.
Context {V : Type}.
Implicit Types (self : DoubleMLData V) (df : DataFrame V).

(** The instrument columns, none when [z_cols] is [None]. *)
Definition z_list self : list string := default [] (_z_cols self).

(** What the setters establish: every role names columns of the frame. *)
Definition roles_in_columns self : Prop :=
  _y_col self ∈ all_variables self ∧
  _d_cols self ⊆ all_variables self ∧
  _x_cols self ⊆ all_variables self ∧
  z_list self ⊆ all_variables self.

(** The invariant of the data model: no column has two roles. *)
Definition roles_disjoint self : Prop :=
  (_y_col self ∉ _d_cols self) ∧
  (_y_col self ∉ _x_cols self) ∧
  (_y_col self ∉ z_list self) ∧
  (_d_cols self ## _x_cols self) ∧
  (_d_cols self ## z_list self) ∧
  (_x_cols self ## z_list self).

(** Instances obtained from [__init__] and later assignments to the four
    role properties. *)
Inductive constructed : DoubleMLData V → Prop :=
| by_init df yv dv xv zv b self :
    __init__ df yv dv xv zv b = Ok self → constructed self
| by_y_col self v self' :
    constructed self → set_y_col self v = Ok self' → constructed self'
| by_d_cols self v self' :
    constructed self → set_d_cols self v = Ok self' → constructed self'
| by_x_cols self v self' :
    constructed self → set_x_cols self v = Ok self' → constructed self'
| by_z_cols self v self' :
    constructed self → set_z_cols self v = Ok self' → constructed self'.

(** The first column of [df] labelled [c]. *)
Definition column df (c : string) : option (list V) :=
  snd <$> head (matching df c).

(** The array made of the columns [labels] of [df], in that order. *)
Definition submatrix df (labels : list string) : option (ndarray V) :=
  vs ← mapM (column df) labels; Some (Arr2 (df_rows df) vs).

(** The slices as the data model describes them for the selected treatment
    [t]: the covariates are [x_cols] and, on request, the treatments other
    than [t]; [t] itself is not a covariate; [d] is the column [t]. *)
Definition slices_as_specified self (t : string) : Prop :=
  (use_other_treat_as_covariate self = true →
     Some (x self) =
       submatrix (data self) (_x_cols self ++ filter (λ c, c ≠ t) (_d_cols self)) ∧
     t ∉ columns (_X self)) ∧
  (use_other_treat_as_covariate self = false →
     Some (x self) = submatrix (data self) (_x_cols self)) ∧
  Some (d self) = Arr1 <$> column (data self) t.

(** The slices as [_set_x_d] produces them: [list.remove] takes the first
    occurrence of [t] out of [x_cols + d_cols]. *)
Definition slices_as_computed self (t : string) : Prop :=
  (use_other_treat_as_covariate self = true →
     ∃ xd_list, list_remove t (_x_cols self ++ _d_cols self) = Some xd_list ∧
       Some (x self) = submatrix (data self) xd_list ∧
       (t ∉ _x_cols self → NoDup (_d_cols self) →
          xd_list = _x_cols self ++ filter (λ c, c ≠ t) (_d_cols self) ∧
          t ∉ columns (_X self))) ∧
  (use_other_treat_as_covariate self = false →
     Some (x self) = submatrix (data self) (_x_cols self)) ∧
  Some (d self) = Arr1 <$> column (data self) t.

(** Values a column-role setter has no reading for. *)
Definition is_str (v : pyval) : bool :=
  match v with PyStr _ => true | _ => false end.

Definition is_list (v : pyval) : bool :=
  match v with PyList _ => true | _ => false end.

End Properties.

(** ** Small frames used in examples *)

(** Two rows; outcome [y], treatment [d], covariate [x]. *)
Definition frame_ydx : DataFrame Z :=
  mkFrame 2 [("y", [1; 2]%Z); ("d", [0; 1]%Z); ("x", [5; 6]%Z)].

(** The same with an outcome whose name has more than one character. *)
Definition frame_outcome : DataFrame Z :=
  mkFrame 2 [("outcome", [1; 2]%Z); ("d", [0; 1]%Z); ("x", [5; 6]%Z)].

(** [DoubleMLData(frame_ydx, 'y', 'd')] *)
Definition obj_ydx : DoubleMLData Z :=
  mkData frame_ydx "y" ["d"] ["x"] None true
    (Series [1; 2]%Z) None (Series [0; 1]%Z) (mkFrame 2 [("x", [5; 6]%Z)]).

(** Outcome [y], treatments [d1] and [d2], covariate [x]. *)
Definition frame_two_treatments : DataFrame Z :=
  mkFrame 2 [("y", [1; 2]%Z); ("d1", [0; 1]%Z); ("d2", [1; 0]%Z); ("x", [5; 6]%Z)].

(** [DoubleMLData(frame_two_treatments, 'y', ['d1', 'd2'], 'x')] *)
Definition obj_two_treatments : DoubleMLData Z :=
  mkData frame_two_treatments "y" ["d1"; "d2"] ["x"] None true
    (Series [1; 2]%Z) None (Series [0; 1]%Z)
    (mkFrame 2 [("x", [5; 6]%Z); ("d2", [1; 0]%Z)]).

(** An assignment fails with an exception whose message names the
    parameter. *)
Definition rejects_naming {A : Type} (name : string) (r : result A) : Prop :=
  ∃ e, r = Raise e ∧ mentions name (exc_msg e) = true.

(** ** Generated column names *)

Definition first_char (s : string) : option ascii :=
  match s with
  | EmptyString => None
  | String c _ => Some c
  end.

(** The names [from_arrays] gives to a block of [k] columns: the bare letter
    for a single column, the letter followed by 1, 2, ... otherwise. *)
Definition block_names (c : ascii) (k : nat) : list string :=
  if Nat.eqb k 1 then [String c EmptyString]
  else numbered (String c EmptyString) k.

(** The frame [from_arrays] builds from the columns of [X], the outcome, the
    columns of [d] and, when given, the columns of [z]. *)
Definition stacked_frame {V : Type} (n : nat) (xcols : list (list V))
    (yv : list V) (dcols : list (list V)) (zcols : option (list (list V)))
  : DataFrame V :=
  mkFrame n
    (zip (numbered "X" (length xcols) ++ ["y"] ++ block_names "d" (length dcols) ++
          match zcols with Some zc => block_names "z" (length zc) | None => [] end)
         (xcols ++ [yv] ++ dcols ++ default [] zcols)).

(** ** The potential-quantile estimator, as far as its callers show it *)

Section PotentialQuantile.
Context {V : Type}.

(** Python's rendering of a float in a message ([str(1.0)] is ['1.0']); it
    is outside the model. *)
Variable str_float : Q → string.

(** Modelled from the spec: the data handed to an estimator is a data backend
    together with the cluster variables it declares, if any (the class for
    clustered data is not among the sources). *)
Record dml_data : Type := mkDmlData {
  backend : DoubleMLData V;
  cluster_cols : option (list string)
}.

Definition is_cluster_data (obj : dml_data) : bool :=
  match cluster_cols obj with Some _ => true | None => false end.

(** [isinstance(v, float)], [isinstance(v, int)] (a [bool] is an [int]) and
    [isinstance(v, bool)]. *)
Definition is_float (v : pyval) : bool :=
  match v with PyFloat _ => true | _ => false end.

Definition is_int (v : pyval) : bool :=
  match v with PyInt _ | PyBool _ => true | _ => false end.

Definition is_bool (v : pyval) : bool :=
  match v with PyBool _ => true | _ => false end.

Definition type_passed (v : pyval) : string :=
  "Object of type <class '" +:+ type_name v +:+ "'> passed.".

(** Modelled from the spec: the class [DoubleMLPQ] is not among the sources.
    Section 7 has wrong types and ranges of the quantile, treatment and
    bandwidth parameters detected at construction; the messages are those
    [test_pq.py] expects.  The quantile is a float strictly between 0 and 1. *)
Definition _check_quantile (quantile : pyval) : result Q :=
  match quantile with
  | PyFloat q =>
      if Qle_bool q 0 || Qle_bool 1 q
      then Raise (Exc ValueError
                    ("Quantile has be between 0 or 1. Quantile " +:+ str_float q +:+ " passed."))
      else Ok q
  | _ => Raise (Exc TypeError ("Quantile has to be a float. " +:+ type_passed quantile))
  end.

(** Modelled from the spec: the treatment indicator is the integer 0 or 1. *)
Definition _check_treatment (treatment : pyval) : result Z :=
  let check (t : Z) :=
    if Z.eqb t 0 || Z.eqb t 1 then Ok t
    else Raise (Exc ValueError
                  ("Treatment indicator has be either 0 or 1. Treatment indicator "
                   +:+ pretty t +:+ " passed.")) in
  match treatment with
  | PyInt t => check t
  | PyBool b => check (Z.b2z b)
  | _ => Raise (Exc TypeError
                  ("Treatment indicator has to be an integer. " +:+ type_passed treatment))
  end.

(** Modelled from the spec: the bandwidth is a positive float. *)
Definition _check_bandwidth (h : pyval) : result Q :=
  match h with
  | PyFloat q =>
      if Qle_bool q 0
      then Raise (Exc ValueError
                    ("Bandwidth has be positive. Bandwidth " +:+ str_float q +:+ " passed."))
      else Ok q
  | _ => Raise (Exc TypeError ("Bandwidth has to be a float. " +:+ type_passed h))
  end.

(** Modelled from the spec: the normalization indicator is a boolean. *)
Definition _check_normalize (normalize : pyval) : result bool :=
  match normalize with
  | PyBool b => Ok b
  | _ => Raise (Exc TypeError
                  ("Normalization indicator has to be boolean. " +:+ type_passed normalize))
  end.

Record DoubleMLPQ : Type := mkPQ {
  _dml_data : dml_data;
  treatment : Z;
  quantile : Q;
  h : Q;
  normalize : bool
}.

(** Modelled from the spec: [DoubleMLPQ.__init__], reduced to what is checked
    before any fitting: clustered data has no potential-quantile variant, and
    the four parameters are checked one after the other. *)
Definition DoubleMLPQ_init (obj_dml_data : dml_data)
    (treatment quantile h normalize : pyval) : result DoubleMLPQ :=
  if is_cluster_data obj_dml_data
  then Raise (Exc NotImplementedError "Estimation with clustering not implemented.")
  else
    q ← _check_quantile quantile;
    t ← _check_treatment treatment;
    bw ← _check_bandwidth h;
    nz ← _check_normalize normalize;
    Ok (mkPQ obj_dml_data t q bw nz).

(** Modelled from the spec: [DoubleMLPQ.tune]; a parameter grid maps a learner
    to the candidate values of its parameters. *)
Definition tune (self : DoubleMLPQ)
    (param_grids : list (string * list (string * list pyval))) : result unit :=
  Raise (Exc NotImplementedError "Nuisance tuning not implemented for potential quantiles.").

End PotentialQuantile.

Arguments dml_data V : clear implicits.
Arguments DoubleMLPQ V : clear implicits.

(** ** Sample splitting supplied from outside *)

(** One fold: the training and the test indices. *)
Definition fold : Type := list nat * list nat.

(** Modelled from the spec: the partition-completeness check of section 3 for
    one repetition.  Every index below [n] lies in the test set of exactly
    one fold, and no test set holds an index outside the range. *)
Definition covers_once (n : nat) (folds : list fold) : bool :=
  forallb (λ k, Nat.eqb (length (filter (λ f : fold, k ∈ f.2) folds)) 1) (seq 0 n) &&
  forallb (λ f : fold, forallb (λ k, Nat.ltb k n) f.2) folds.

(** The states of section 4.4. *)
Inductive engine_state : Type :=
| UNFIT | SPLIT | NUISANCE_FITTED | SCORED | SOLVED | AGGREGATED | FAILED.

(** Modelled from the spec: what of an estimation engine matters to sample
    splitting (the class [DoubleML] is not among the sources). *)
Record DoubleML : Type := mkEngine {
  engine_n_obs : nat;
  n_folds : nat;
  n_rep : nat;
  smpls : option (list (list fold));
  state : engine_state
}.

(** Modelled from the spec: [set_sample_splitting] checks every repetition
    before it stores the partitions, and takes the numbers of repetitions and
    folds from them. *)
Definition set_sample_splitting (self : DoubleML) (all_smpls : list (list fold))
  : result DoubleML :=
  if forallb (covers_once (engine_n_obs self)) all_smpls
  then Ok (mkEngine (engine_n_obs self) (length (default [] (head all_smpls)))
             (length all_smpls) (Some all_smpls) SPLIT)
  else Raise (Exc ValueError
                "Invalid partition provided. At least one repetition does not partition the observations.").

(** The invariant of section 3, for one repetition: the test sets of
    different folds are disjoint and their union is the full index set. *)
Definition partition_complete (n : nat) (folds : list fold) : Prop :=
  (∀ (i j : nat) (f g : fold),
     i ≠ j → folds !! i = Some f → folds !! j = Some g → f.2 ## g.2) ∧
  (∀ k : nat, (∃ f : fold, f ∈ folds ∧ k ∈ f.2) ↔ k < n).

(** A rendering of floats for the examples: numerator and denominator. *)
Definition str_fraction (q : Q) : string :=
  pretty (Qnum q) +:+ "/" +:+ pretty (Zpos (Qden q)).

(** Five observations in three folds, and the same with observation 4 left
    out of every test set. *)
Definition smpls_ok : list (list fold) :=
  [[([2; 3; 4], [0; 1]); ([0; 1; 4], [2; 3]); ([0; 1; 2; 3], [4])]].

Definition smpls_gap : list (list fold) :=
  [[([2; 3; 4], [0; 1]); ([0; 1; 4], [2; 3]); ([0; 1; 2; 3], [])]].

(** ** Instances in use: well-formed frames and the methods that act on them *)

Section InUse.
Context {V : Type}.
Implicit Types (self : DoubleMLData V) (df : DataFrame V).

(** Every column of the frame has as many entries as the frame has rows. *)
Definition wf_frame df : Prop :=
  Forall (λ p : string * list V, length p.2 = df_rows df) (df_cols df).

(** Instances obtained from [__init__] by assignments to the role properties
    and calls of the two slicers, in any order. *)
Inductive reachable : DoubleMLData V → Prop :=
| reach_init df yv dv xv zv b self :
    __init__ df yv dv xv zv b = Ok self → reachable self
| reach_y_col self v self' :
    reachable self → set_y_col self v = Ok self' → reachable self'
| reach_d_cols self v self' :
    reachable self → set_d_cols self v = Ok self' → reachable self'
| reach_x_cols self v self' :
    reachable self → set_x_cols self v = Ok self' → reachable self'
| reach_z_cols self v self' :
    reachable self → set_z_cols self v = Ok self' → reachable self'
| reach_set_y_z self self' :
    reachable self → _set_y_z self = Ok self' → reachable self'
| reach_set_x_d self t self' :
    reachable self → _set_x_d self t = Ok self' → reachable self'.

(** The exceptions [__init__] can end in. *)
Definition validation_error (c : exc_class) : bool :=
  match c with
  | TypeError | AssertionError | IndexError => true
  | _ => false
  end.

(** [a.shape[1]] of an accessor's result, as a number when there is one. *)
Definition n_columns (a : ndarray V) : option nat :=
  match a with
  | Arr1 _ => None
  | Arr2 _ cols => Some (length cols)
  end.

End InUse.

(** The slices kept in an instance have the rows of its frame. *)
Definition slices_aligned {V : Type} (self : DoubleMLData V) : Prop :=
  shape0 (values (_y self)) = df_rows (data self) ∧
  shape0 (values (_d self)) = df_rows (data self) ∧
  df_rows (_X self) = df_rows (data self) ∧
  (∀ f, _z self = Some f → df_rows f = df_rows (data self)).

(** Outcome, treatment, covariate and instrument in two rows. *)
Definition frame_ydxz : DataFrame Z :=
  mkFrame 2 [("y", [1; 2]%Z); ("d", [0; 1]%Z); ("x", [5; 6]%Z); ("z", [7; 8]%Z)].

(** [DoubleMLData(frame_ydxz, 'y', 'd', 'x', 'z')] *)
Definition obj_ydxz : DoubleMLData Z :=
  mkData frame_ydxz "y" ["d"] ["x"] (Some ["z"]) true
    (Series [1; 2]%Z) (Some (mkFrame 2 [("z", [7; 8]%Z)])) (Series [0; 1]%Z)
    (mkFrame 2 [("x", [5; 6]%Z)]).
(** ** Reasoning about [result] *)

Lemma bind_Ok {A B : Type} (r : result A) (k : A → result B) (b : B) :
  r ≫= k = Ok b ↔ ∃ a, r = Ok a ∧ k a = Ok b.
Proof.
  destruct r as [a|e]; simpl; split.
  - intros H. by exists a.
  - by intros (a' & [= <-] & H).
  - discriminate.
  - by intros (a' & [=] & _).
Qed.

Lemma assert_Ok (c : bool) (u : unit) : assert_ c = Ok u ↔ c = true.
Proof. destruct c, u; simpl; split; congruence. Qed.

Lemma assert_false_raises (c : bool) :
  c = false → assert_ c = Raise (Exc AssertionError "").
Proof. by intros ->. Qed.

(** Split a successful sequence into its successful steps. *)
Ltac bind_inv H :=
  repeat match type of H with
  | _ ≫= _ = Ok _ =>
      let a := fresh "a" in
      let Ha := fresh "Ha" in
      apply bind_Ok in H as (a & Ha & H)
  end.

Lemma prefix_app (name pre rest : string) :
  String.prefix name pre = true → String.prefix name (pre +:+ rest) = true.
Proof.
  revert pre. induction name as [|c name IH]; intros pre; simpl.
  - by destruct (pre +:+ rest).
  - destruct pre as [|c' pre]; [discriminate|]. simpl.
    destruct (Ascii.ascii_dec c c'); [apply IH | discriminate].
Qed.

Lemma mentions_starts (name pre rest : string) :
  String.prefix name pre = true → mentions name (pre +:+ rest) = true.
Proof.
  intros H%(prefix_app _ _ rest). destruct (pre +:+ rest); simpl in *; by rewrite H.
Qed.

(** ** The setters *)

Section SetterFacts.
Context {V : Type}.
Implicit Types (self : DoubleMLData V) (df : DataFrame V).

Lemma issubset_labels (l : list pyval) (vars : list string) :
  issubset l vars = true →
  PyStr <$> omap label_of l = l ∧ omap label_of l ⊆ vars.
Proof.
  induction l as [|v l IH]; simpl.
  - intros _. split; [done | apply list_subseteq_nil].
  - intros [Hv Hl]%andb_prop. destruct (IH Hl) as [IH1 IH2].
    destruct v; try discriminate. simpl.
    apply bool_decide_eq_true in Hv. split.
    + change (PyStr s :: (PyStr <$> omap label_of l) = PyStr s :: l).
      by rewrite IH1.
    + intros c [->|Hc]%elem_of_cons; auto.
Qed.

Lemma issubset_strings (l vars : list string) :
  issubset (PyStr <$> l) vars = true ↔ l ⊆ vars.
Proof.
  induction l as [|s l IH]; simpl.
  - split; [intros _; apply list_subseteq_nil | done].
  - rewrite andb_true_iff, bool_decide_eq_true, IH. split.
    + intros [Hs Hl] c [->|Hc]%elem_of_cons; auto.
    + intros H. split; [apply H; left | intros c Hc; apply H; by right].
Qed.

Lemma omap_label_of_strings (l : list string) : omap label_of (PyStr <$> l) = l.
Proof.
  induction l as [|s l IH]; [done|].
  rewrite fmap_cons. simpl. f_equal. exact IH.
Qed.

Lemma hashable_strings (l : list string) : forallb hashable (PyStr <$> l) = true.
Proof. by induction l. Qed.

Lemma cols_value_Ok (name : string) (vars : list string) (value : pyval) (l : list string) :
  cols_value name vars value = Ok l → l ⊆ vars.
Proof.
  unfold cols_value. intros H.
  assert (Hl : ∀ vs, (if forallb hashable vs
                      then _ ← assert_ (issubset vs vars); Ok (omap label_of vs)
                      else Raise (Exc TypeError "unhashable type: 'list'")) = Ok l →
                     l ⊆ vars).
  { intros vs Hvs. destruct (forallb hashable vs); [|discriminate].
    bind_inv Hvs. apply assert_Ok in Ha. injection Hvs as <-.
    by apply issubset_labels. }
  destruct value; try discriminate; by apply Hl in H.
Qed.

Lemma cols_value_strings (name : string) (vars l : list string) :
  l ⊆ vars → cols_value name vars (PyList (PyStr <$> l)) = Ok l.
Proof.
  intros Hl. unfold cols_value. rewrite hashable_strings.
  apply issubset_strings in Hl. rewrite Hl. simpl.
  by rewrite omap_label_of_strings.
Qed.

Lemma cols_value_missing (name : string) (vars l : list string) :
  ¬ l ⊆ vars →
  cols_value name vars (PyList (PyStr <$> l)) = Raise (Exc AssertionError "").
Proof.
  intros Hl. unfold cols_value. rewrite hashable_strings.
  destruct (issubset (PyStr <$> l) vars) eqn:E; [|done].
  by apply issubset_strings in E.
Qed.

Lemma y_col_value_Ok (vars : list string) (value : pyval) (s : string) :
  y_col_value vars value = Ok s ↔ value = PyStr s ∧ s ∈ vars.
Proof.
  unfold y_col_value. destruct value; try (split; [discriminate | by intros [[=] _]]).
  destruct (bool_decide (s0 ∈ vars)) eqn:E; simpl.
  - apply bool_decide_eq_true in E. split; [by intros [= <-] | by intros [[= <-] _]].
  - apply bool_decide_eq_false in E. split; [discriminate | by intros [[= <-] ?]].
Qed.

Lemma z_cols_value_Ok (vars : list string) (value : pyval) (zc : option (list string)) :
  z_cols_value vars value = Ok zc → default [] zc ⊆ vars.
Proof.
  unfold z_cols_value. intros H.
  destruct value; try (bind_inv H; injection H as <-; by apply cols_value_Ok in Ha).
  injection H as <-. apply list_subseteq_nil.
Qed.

(** The slicers and the setters leave the roles and the frame alone. *)
Lemma _set_y_z_fields self self' :
  _set_y_z self = Ok self' →
  data self' = data self ∧ _y_col self' = _y_col self ∧
  _d_cols self' = _d_cols self ∧ _x_cols self' = _x_cols self ∧
  _z_cols self' = _z_cols self ∧
  use_other_treat_as_covariate self' = use_other_treat_as_covariate self ∧
  loc_label (data self) (_y_col self) = Ok (_y self').
Proof.
  unfold _set_y_z. intros H. bind_inv H. by injection H as <-.
Qed.

Lemma _set_x_d_fields self t self' :
  _set_x_d self t = Ok self' →
  data self' = data self ∧ _y_col self' = _y_col self ∧
  _d_cols self' = _d_cols self ∧ _x_cols self' = _x_cols self ∧
  _z_cols self' = _z_cols self ∧
  use_other_treat_as_covariate self' = use_other_treat_as_covariate self ∧
  _y self' = _y self ∧ _z self' = _z self ∧ t ∈ _d_cols self.
Proof.
  unfold _set_x_d. intros H. bind_inv H. apply assert_Ok, bool_decide_eq_true in Ha.
  by injection H as <-.
Qed.

Lemma init_inv df (yv dv xv zv : pyval) (b : bool) self :
  __init__ df yv dv xv zv b = Ok self →
  ∃ yc dc zc xc t self1,
    y_col_value (columns df) yv = Ok yc ∧
    cols_value "d_cols" (columns df) dv = Ok dc ∧
    z_cols_value (columns df) zv = Ok zc ∧
    match xv with
    | PyNone => xc = default_x_cols df yc dc zc
    | _ => cols_value "x_cols" (columns df) xv = Ok xc
    end ∧
    _set_y_z (mkData df yc dc xc zc b (Series []) None (Series []) (mkFrame 0 []))
      = Ok self1 ∧
    head dc = Some t ∧
    _set_x_d self1 t = Ok self.
Proof.
  unfold __init__. intros H. bind_inv H.
  rename a into yc, a0 into dc, a1 into zc, a2 into xc, a3 into self1.
  destruct (_set_y_z_fields _ _ Ha3) as (_ & _ & Hd & _). simpl in Hd.
  destruct (_d_cols self1) as [|t ds] eqn:Ed; [discriminate|].
  exists yc, dc, zc, xc, t, self1. repeat split; try done.
  - destruct xv; try done.
    assert (Hsub : default_x_cols df yc dc zc ⊆ columns df).
    { unfold default_x_cols. destruct zc; intros c Hc;
        apply list_elem_of_filter in Hc; tauto. }
    rewrite (cols_value_strings _ _ _ Hsub) in Ha2. congruence.
  - by rewrite <- Hd.
Qed.

Lemma init_fields df (yv dv xv zv : pyval) (b : bool) self :
  __init__ df yv dv xv zv b = Ok self →
  data self = df ∧ use_other_treat_as_covariate self = b ∧
  y_col_value (columns df) yv = Ok (_y_col self) ∧
  cols_value "d_cols" (columns df) dv = Ok (_d_cols self) ∧
  z_cols_value (columns df) zv = Ok (_z_cols self) ∧
  match xv with
  | PyNone => _x_cols self = default_x_cols df (_y_col self) (_d_cols self) (_z_cols self)
  | _ => cols_value "x_cols" (columns df) xv = Ok (_x_cols self)
  end.
Proof.
  intros (yc & dc & zc & xc & t & self1 & Hy & Hd & Hz & Hx & H1 & _ & H2)%init_inv.
  apply _set_y_z_fields in H1 as (E1 & E2 & E3 & E4 & E5 & E6 & _).
  apply _set_x_d_fields in H2 as (F1 & F2 & F3 & F4 & F5 & F6 & _).
  simpl in *.
  rewrite F1, F2, F3, F4, F5, F6, E1, E2, E3, E4, E5, E6.
  repeat split; try done.
Qed.

End SetterFacts.

(** ** Column roles: what validation establishes *)

Section Roles.
Context {V : Type}.
Implicit Types (self : DoubleMLData V) (df : DataFrame V).

Lemma init_roles_in_columns df (yv dv xv zv : pyval) (b : bool) self :
  __init__ df yv dv xv zv b = Ok self → roles_in_columns self.
Proof.
  intros (Hdf & _ & Hy & Hd & Hz & Hx)%init_fields.
  unfold roles_in_columns, all_variables, z_list. rewrite Hdf.
  apply y_col_value_Ok in Hy as [_ Hy]. apply cols_value_Ok in Hd.
  apply z_cols_value_Ok in Hz. repeat split; try done.
  destruct xv; try by apply cols_value_Ok in Hx.
  rewrite Hx. unfold default_x_cols.
  destruct (_z_cols self); intros c Hc; apply list_elem_of_filter in Hc; tauto.
Qed.

Lemma set_y_col_roles self v self' :
  roles_in_columns self → set_y_col self v = Ok self' → roles_in_columns self'.
Proof.
  intros (Hy & Hd & Hx & Hz) H. unfold set_y_col in H. bind_inv H.
  injection H as <-. apply y_col_value_Ok in Ha as [_ Ha]. by repeat split.
Qed.

Lemma set_d_cols_roles self v self' :
  roles_in_columns self → set_d_cols self v = Ok self' → roles_in_columns self'.
Proof.
  intros (Hy & Hd & Hx & Hz) H. unfold set_d_cols in H. bind_inv H.
  injection H as <-. apply cols_value_Ok in Ha. by repeat split.
Qed.

Lemma set_x_cols_roles self v self' :
  roles_in_columns self → set_x_cols self v = Ok self' → roles_in_columns self'.
Proof.
  intros (Hy & Hd & Hx & Hz) H. unfold set_x_cols in H. bind_inv H.
  injection H as <-. apply cols_value_Ok in Ha. by repeat split.
Qed.

Lemma set_z_cols_roles self v self' :
  roles_in_columns self → set_z_cols self v = Ok self' → roles_in_columns self'.
Proof.
  intros (Hy & Hd & Hx & Hz) H. unfold set_z_cols in H. bind_inv H.
  injection H as <-. apply z_cols_value_Ok in Ha. by repeat split.
Qed.

(** C1, as the code has it: an instance obtained from [__init__] and any
    later assignments to [y_col], [d_cols], [x_cols], [z_cols] names, in each
    role, only columns of its data frame.  Nothing more is checked: the roles
    are not compared with one another. *)
Theorem constructed_roles_in_columns self :
  constructed self → roles_in_columns self.
Proof.
  induction 1 as [df yv dv xv zv b self H
                 | self v self' _ IH H | self v self' _ IH H
                 | self v self' _ IH H | self v self' _ IH H].
  - by eapply init_roles_in_columns.
  - by eapply set_y_col_roles.
  - by eapply set_d_cols_roles.
  - by eapply set_x_cols_roles.
  - by eapply set_z_cols_roles.
Qed.

(** Membership in the default covariates: the outcome enters through its
    characters. *)
Lemma default_x_cols_spec df (y_col : string) (d_cols : list string)
    (z_cols : option (list string)) (c : string) :
  c ∈ default_x_cols df y_col d_cols z_cols ↔
  c ∈ columns df ∧ (c ∉ chars y_col) ∧ (c ∉ d_cols) ∧ (c ∉ default [] z_cols).
Proof.
  unfold default_x_cols. destruct z_cols as [zc|]; simpl;
    rewrite list_elem_of_filter; set_solver.
Qed.

End Roles.

Example init_obj_ydx :
  __init__ frame_ydx (PyStr "y") (PyStr "d") PyNone PyNone true = Ok obj_ydx.
Proof. vm_compute. reflexivity. Qed.

Lemma constructed_roles_in_columns_witness :
  constructed obj_ydx ∧ roles_in_columns obj_ydx.
Proof.
  assert (H : constructed obj_ydx).
  { apply (by_init frame_ydx (PyStr "y") (PyStr "d") PyNone PyNone true).
    vm_compute. reflexivity. }
  split; [exact H | exact (constructed_roles_in_columns obj_ydx H)].
Defined.

(** C1 as stated fails: one column given all four roles is accepted. *)
Lemma shared_column_accepted :
  ∃ self : DoubleMLData Z,
    __init__ frame_ydx (PyStr "y") (PyList [PyStr "y"]) (PyList [PyStr "y"])
      (PyStr "y") true = Ok self ∧
    ¬ roles_disjoint self.
Proof.
  eexists. split; [vm_compute; reflexivity|].
  intros (H & _). apply H. simpl. left.
Qed.

(** C2: with the outcome column ['outcome'] and [x_cols=None] the outcome
    stays among the covariates, because [set(y_col)] is the set of its
    characters. *)
Theorem default_x_cols_keeps_outcome :
  ∃ self : DoubleMLData Z,
    __init__ frame_outcome (PyStr "outcome") (PyStr "d") PyNone PyNone true = Ok self ∧
    _x_cols self = ["outcome"; "x"].
Proof. eexists. split; vm_compute; reflexivity. Qed.

(** C7: for data without instruments the accessor [z] gives [None], but
    [n_instr] takes [len(None)] and raises instead of returning zero. *)
Theorem n_instr_without_instruments :
  ∃ self : DoubleMLData Z,
    __init__ frame_ydx (PyStr "y") (PyStr "d") PyNone PyNone true = Ok self ∧
    z self = Ok None ∧
    n_instr self = Raise (Exc TypeError "object of type 'NoneType' has no len()").
Proof. eexists. repeat split; vm_compute; reflexivity. Qed.

(** ** Selecting columns of a frame with unique labels *)

Section Selecting.
Context {V : Type}.
Implicit Types (self : DoubleMLData V) (df : DataFrame V).

Lemma matching_absent df (c : string) : c ∉ columns df → matching df c = [].
Proof.
  unfold matching, columns. induction (df_cols df) as [|[a v] cs IH]; [done|].
  simpl. rewrite not_elem_of_cons. intros [Hne Hc].
  rewrite filter_cons_False by (simpl; congruence). auto.
Qed.

Lemma matching_unique df (c : string) :
  NoDup (columns df) → c ∈ columns df → ∃ v, matching df c = [(c, v)].
Proof.
  unfold matching, columns. induction (df_cols df) as [|[a v] cs IH]; simpl.
  - intros _ Hc. by apply elem_of_nil in Hc.
  - intros [Ha Hnd]%NoDup_cons Hc. destruct (decide (a = c)) as [->|Hne].
    + exists v. rewrite filter_cons_True by done. f_equal.
      apply (matching_absent (mkFrame 0 cs)), Ha.
    + rewrite filter_cons_False by (simpl; congruence).
      apply elem_of_cons in Hc as [Hc|Hc]; [congruence | auto].
Qed.

Lemma loc_label_unique df (c : string) :
  NoDup (columns df) → c ∈ columns df →
  ∃ v, column df c = Some v ∧ loc_label df c = Ok (Series v).
Proof.
  intros Hnd Hc. destruct (matching_unique df c Hnd Hc) as [v Hv].
  exists v. unfold column, loc_label. by rewrite Hv.
Qed.

Lemma loc_cols_unique df (labels : list string) :
  NoDup (columns df) → labels ⊆ columns df →
  ∃ vs, mapM (column df) labels = Some vs ∧ length vs = length labels ∧
        loc_cols df labels = Ok (zip labels vs).
Proof.
  intros Hnd. induction labels as [|c labels IH]; intros Hsub.
  - by exists [].
  - destruct IH as (vs & Hvs & Hlen & Hloc).
    { intros a Ha. apply Hsub. by right. }
    destruct (matching_unique df c Hnd) as [v Hv]; [apply Hsub; left|].
    assert (Hc : column df c = Some v) by (unfold column; by rewrite Hv).
    exists (v :: vs). cbn. rewrite Hc, Hvs, Hv, Hloc, Hlen. by cbn.
Qed.

Lemma loc_list_unique df (labels : list string) :
  NoDup (columns df) → labels ⊆ columns df →
  ∃ f, loc_list df labels = Ok f ∧ columns f = labels ∧
       Some (frame_values f) = submatrix df labels.
Proof.
  intros Hnd Hsub. destruct (loc_cols_unique df labels Hnd Hsub) as (vs & Hvs & Hlen & Hloc).
  exists (mkFrame (df_rows df) (zip labels vs)). unfold loc_list, submatrix.
  rewrite Hloc, Hvs. simpl. unfold columns, frame_values. simpl. split; [done|].
  split.
  - apply fst_zip. lia.
  - do 2 f_equal. apply snd_zip. lia.
Qed.

(** [list.remove] *)
Lemma list_remove_subseteq (t : string) (l l' : list string) :
  list_remove t l = Some l' → l' ⊆ l.
Proof.
  revert l'. induction l as [|a l IH]; simpl; [discriminate|]. intros l'.
  destruct (decide (a = t)) as [->|Hne].
  - intros [= <-] c Hc. by right.
  - destruct (list_remove t l) as [r|]; [|discriminate]. intros [= <-].
    intros c [->|Hc]%elem_of_cons; [left | right; by apply (IH r)].
Qed.

Lemma list_remove_app_r (t : string) (xs ds : list string) :
  t ∉ xs → list_remove t (xs ++ ds) = (xs ++.) <$> list_remove t ds.
Proof.
  induction xs as [|a xs IH]; simpl.
  - intros _. by destruct (list_remove t ds).
  - rewrite not_elem_of_cons. intros [Hne Hxs].
    destruct (decide (a = t)); [congruence|]. rewrite (IH Hxs).
    by destruct (list_remove t ds).
Qed.

Lemma filter_ne_absent (t : string) (ds : list string) :
  t ∉ ds → filter (λ c, c ≠ t) ds = ds.
Proof.
  induction ds as [|a ds IH]; [done|].
  rewrite not_elem_of_cons. intros [Hne Hds].
  rewrite filter_cons_True by congruence. by rewrite (IH Hds).
Qed.

Lemma list_remove_NoDup (t : string) (ds : list string) :
  NoDup ds → t ∈ ds → list_remove t ds = Some (filter (λ c, c ≠ t) ds).
Proof.
  induction ds as [|a ds IH]; simpl.
  - intros _ H. by apply elem_of_nil in H.
  - intros [Ha Hnd]%NoDup_cons Ht. destruct (decide (a = t)) as [->|Hne].
    + rewrite filter_cons_False by (intros H; by apply H). f_equal.
      symmetry. by apply filter_ne_absent.
    + rewrite filter_cons_True by done.
      apply elem_of_cons in Ht as [Ht|Ht]; [congruence|].
      by rewrite (IH Hnd Ht).
Qed.

Lemma list_remove_elem (t : string) (l : list string) :
  t ∈ l → is_Some (list_remove t l).
Proof.
  induction l as [|a l IH]; simpl.
  - intros H. by apply elem_of_nil in H.
  - intros Ht. destruct (decide (a = t)); [by eexists|].
    apply elem_of_cons in Ht as [Ht|Ht]; [congruence|].
    destruct (IH Ht) as [r ->]. by eexists.
Qed.

End Selecting.

(** ** The default covariates and the instruments, in general *)

Section Defaults.
Context {V : Type}.
Implicit Types (self : DoubleMLData V) (df : DataFrame V).

Lemma chars_length (s c : string) : c ∈ chars s → String.length c = 1.
Proof.
  induction s as [|a s IH]; simpl.
  - intros H. by apply elem_of_nil in H.
  - intros [->|H]%elem_of_cons; [done | auto].
Qed.

(** For an outcome named by a single character the default is the documented
    one: the columns that are neither outcome nor treatment nor instrument. *)
Lemma default_x_cols_single_char df (a : ascii) (d_cols : list string)
    (z_cols : option (list string)) (c : string) :
  c ∈ default_x_cols df (String a EmptyString) d_cols z_cols ↔
  c ∈ columns df ∧ c ≠ String a EmptyString ∧ (c ∉ d_cols) ∧ (c ∉ default [] z_cols).
Proof.
  rewrite default_x_cols_spec. simpl. rewrite list_elem_of_singleton. tauto.
Qed.

(** For a longer name the outcome column itself stays in. *)
Lemma default_x_cols_long_outcome df (y_col : string) (d_cols : list string)
    (z_cols : option (list string)) :
  1 < String.length y_col → y_col ∈ columns df →
  y_col ∉ d_cols → y_col ∉ default [] z_cols →
  y_col ∈ default_x_cols df y_col d_cols z_cols.
Proof.
  intros Hlen Hy Hd Hz. apply default_x_cols_spec. repeat split; try done.
  intros Hc%chars_length. lia.
Qed.

(** With instruments declared at construction, [z] is their matrix and
    [n_instr] their number. *)
Lemma instruments_declared df (yv dv xv zv : pyval) (b : bool) self
    (zc : list string) :
  NoDup (columns df) → __init__ df yv dv xv zv b = Ok self → _z_cols self = Some zc →
  ∃ a, z self = Ok (Some a) ∧ Some a = submatrix df zc ∧
       n_instr self = Ok (length zc).
Proof.
  intros Hnd H Hzc.
  pose proof (init_roles_in_columns _ _ _ _ _ _ _ H) as (_ & _ & _ & Hz).
  pose proof (init_fields _ _ _ _ _ _ _ H) as (Hdf & _).
  destruct (init_inv _ _ _ _ _ _ _ H)
    as (yc & dc & zc' & xc & t & self1 & _ & _ & _ & _ & H1 & _ & H2).
  apply _set_x_d_fields in H2 as (_ & _ & _ & _ & F5 & _ & _ & F8 & _).
  unfold _set_y_z in H1. bind_inv H1. injection H1 as <-. simpl in *.
  assert (Ezc : zc' = Some zc) by congruence.
  rewrite ?Ezc, ?Hzc in Ha0.
  unfold z_list, all_variables in Hz. rewrite Hzc, Hdf in Hz. simpl in Hz.
  bind_inv Ha0. injection Ha0 as <-.
  destruct (loc_list_unique df zc Hnd Hz) as (f & Hf & _ & Hvals).
  rewrite Ha1 in Hf. injection Hf as ->.
  exists (frame_values f). unfold z, n_instr. by rewrite Hzc, F8.
Qed.

End Defaults.

(** ** The slices kept for the selected treatment *)

Section Slices.
Context {V : Type}.
Implicit Types (self : DoubleMLData V) (df : DataFrame V).

Lemma _set_x_d_inv self0 (t : string) self :
  _set_x_d self0 t = Ok self →
  ∃ xd_list,
    (if use_other_treat_as_covariate self0
     then list_remove t (_x_cols self0 ++ _d_cols self0) = Some xd_list
     else xd_list = _x_cols self0) ∧
    loc_label (data self0) t = Ok (_d self) ∧
    loc_list (data self0) xd_list = Ok (_X self).
Proof.
  unfold _set_x_d. intros H. bind_inv H. rename a0 into xd_list.
  exists xd_list. injection H as <-. simpl. repeat split; try done.
  destruct (use_other_treat_as_covariate self0).
  - destruct (list_remove t _); [congruence | discriminate].
  - congruence.
Qed.

Lemma _set_x_d_slices self0 (t : string) self :
  roles_in_columns self0 → NoDup (all_variables self0) →
  _set_x_d self0 t = Ok self → slices_as_computed self t.
Proof.
  intros (_ & Hd & Hx & _) Hnd H.
  destruct (_set_x_d_fields _ _ _ H) as (E1 & _ & E3 & E4 & _ & E6 & _ & _ & Ht).
  destruct (_set_x_d_inv _ _ _ H) as (xd_list & Hxd & Hlab & Hloc).
  unfold slices_as_computed, x, d. rewrite E1, E3, E4, E6.
  assert (Hall : _x_cols self0 ++ _d_cols self0 ⊆ all_variables self0).
  { intros c [Hc|Hc]%elem_of_app; auto. }
  split; [|split].
  - intros Hb. rewrite Hb in Hxd. exists xd_list. split; [done|].
    destruct (loc_list_unique (data self0) xd_list Hnd) as (f & Hf & Hcols & Hvals).
    { intros c Hc. apply Hall. by apply (list_remove_subseteq t _ _ Hxd). }
    rewrite Hloc in Hf. injection Hf as <-. split; [done|].
    intros Htx Hndd. rewrite list_remove_app_r, (list_remove_NoDup _ _ Hndd Ht) in Hxd by done.
    injection Hxd as <-. split; [done|]. rewrite Hcols.
    rewrite not_elem_of_app, list_elem_of_filter. tauto.
  - intros Hb. rewrite Hb in Hxd. subst xd_list.
    destruct (loc_list_unique (data self0) (_x_cols self0) Hnd Hx) as (f & Hf & _ & Hvals).
    rewrite Hloc in Hf. by injection Hf as <-.
  - destruct (loc_label_unique (data self0) t Hnd (Hd _ Ht)) as (v & Hv & Hl).
    rewrite Hlab in Hl. injection Hl as ->. by rewrite Hv.
Qed.

Lemma init_presliced df (yv dv xv zv : pyval) (b : bool) self :
  __init__ df yv dv xv zv b = Ok self →
  ∃ self0 t, roles_in_columns self0 ∧ data self0 = df ∧
    head (_d_cols self) = Some t ∧ _set_x_d self0 t = Ok self.
Proof.
  intros H. pose proof (init_roles_in_columns _ _ _ _ _ _ _ H) as Hroles.
  pose proof (init_fields _ _ _ _ _ _ _ H) as (Hdf & _).
  destruct (init_inv _ _ _ _ _ _ _ H) as (yc & dc & zc & xc & t & self1 & _ & _ & _ & _ & H1 & Hh & H2).
  exists self1, t.
  apply _set_y_z_fields in H1 as (E1 & E2 & E3 & E4 & E5 & _).
  destruct (_set_x_d_fields _ _ _ H2) as (F1 & F2 & F3 & F4 & F5 & _).
  simpl in *. split; [|split; [|split]]; try done.
  - unfold roles_in_columns, all_variables, z_list in *.
    by rewrite <- F1, <- F2, <- F3, <- F4, <- F5.
  - by rewrite F3, E3.
Qed.

(** C4, as the code has it.  Right after [_set_x_d(t)], and so right after
    [__init__] with [t = d_cols[0]], on a frame with unique column labels:
    with [use_other_treat_as_covariate] the accessor [x] gives the columns
    [x_cols + d_cols] with the first occurrence of [t] taken out, which is
    [x_cols] plus the treatments other than [t], free of [t], when [t] is not
    a covariate and no treatment is listed twice; without it [x] gives
    [x_cols]; [d] gives the column [t]. *)
Theorem slices_follow_selected_treatment :
  (∀ self0 (t : string) self,
     roles_in_columns self0 → NoDup (all_variables self0) →
     _set_x_d self0 t = Ok self → slices_as_computed self t) ∧
  (∀ df (yv dv xv zv : pyval) (b : bool) self,
     NoDup (columns df) → __init__ df yv dv xv zv b = Ok self →
     ∃ t, head (_d_cols self) = Some t ∧ slices_as_computed self t).
Proof.
  split.
  - apply _set_x_d_slices.
  - intros df yv dv xv zv b self Hnd H.
    destruct (init_presliced _ _ _ _ _ _ _ H) as (self0 & t & Hroles & Hdf & Hh & Hset).
    exists t. split; [done|]. apply (_set_x_d_slices self0); [done| |done].
    unfold all_variables. by rewrite Hdf.
Qed.

End Slices.

Lemma slices_follow_selected_treatment_witness :
  (NoDup (columns frame_two_treatments) ∧
   __init__ frame_two_treatments (PyStr "y") (PyList [PyStr "d1"; PyStr "d2"])
     (PyStr "x") PyNone true = Ok obj_two_treatments) ∧
  ∃ t, head (_d_cols obj_two_treatments) = Some t ∧
       slices_as_computed obj_two_treatments t.
Proof.
  assert (Hnd : NoDup (columns frame_two_treatments)).
  { apply (bool_decide_unpack _). vm_compute. exact I. }
  assert (Hinit : __init__ frame_two_treatments (PyStr "y") (PyList [PyStr "d1"; PyStr "d2"])
                    (PyStr "x") PyNone true = Ok obj_two_treatments).
  { vm_compute. reflexivity. }
  split; [by split|].
  exact (proj2 (@slices_follow_selected_treatment Z) _ _ _ _ _ _ _ Hnd Hinit).
Defined.

(** C4 as stated fails: a treatment that is also listed as covariate stays in
    the covariate slice, because only its first occurrence is removed. *)
Lemma covariate_slice_keeps_treatment :
  ∃ self : DoubleMLData Z,
    __init__ frame_ydx (PyStr "y") (PyList [PyStr "d"])
      (PyList [PyStr "d"; PyStr "x"]) PyNone true = Ok self ∧
    head (_d_cols self) = Some "d" ∧
    ¬ slices_as_specified self "d".
Proof.
  eexists. split; [vm_compute; reflexivity|]. split; [reflexivity|].
  intros (H & _). destruct (H eq_refl) as [_ Hn]. apply Hn.
  simpl. set_solver.
Qed.

(** ** Assignments the setters refuse *)

Section Refusals.
Context {V : Type}.
Implicit Types (self : DoubleMLData V).

Lemma cols_value_wrong_type (name : string) (vars : list string) (value : pyval) :
  is_str value = false → is_list value = false →
  cols_value name vars value = Raise (Exc TypeError (name +:+ " must be a list")).
Proof. by destruct value. Qed.

Lemma cols_value_str_missing (name : string) (vars : list string) (s : string) :
  s ∉ vars → cols_value name vars (PyStr s) = Raise (Exc AssertionError "").
Proof.
  intros Hs. apply (cols_value_missing name vars [s]).
  intros H. apply Hs, H. left.
Qed.

(** C8, as the code has it.  A value that is neither a string nor a list
    makes the setters of [x_cols], [d_cols] and [z_cols] raise [TypeError]
    with the message "<name> must be a list", which names the parameter;
    [None] is the exception for [z_cols], where it is accepted and clears the
    instruments.  A value that is not a string makes the setter of [y_col]
    raise, and a string or list of strings naming a column the frame lacks
    makes every setter raise: both are bare assertions, [AssertionError]
    with an empty message. *)
Theorem setters_reject_invalid self (value : pyval) :
  (is_str value = false → is_list value = false →
     set_x_cols self value = Raise (Exc TypeError "x_cols must be a list") ∧
     rejects_naming "x_cols" (set_x_cols self value) ∧
     set_d_cols self value = Raise (Exc TypeError "d_cols must be a list") ∧
     rejects_naming "d_cols" (set_d_cols self value) ∧
     (value ≠ PyNone →
        set_z_cols self value = Raise (Exc TypeError "z_cols must be a list") ∧
        rejects_naming "z_cols" (set_z_cols self value))) ∧
  (value = PyNone →
     ∃ self', set_z_cols self value = Ok self' ∧ _z_cols self' = None) ∧
  (is_str value = false →
     set_y_col self value = Raise (Exc AssertionError "")) ∧
  (∀ s : string, value = PyStr s → s ∉ all_variables self →
     set_y_col self value = Raise (Exc AssertionError "") ∧
     set_x_cols self value = Raise (Exc AssertionError "") ∧
     set_d_cols self value = Raise (Exc AssertionError "") ∧
     set_z_cols self value = Raise (Exc AssertionError "")) ∧
  (∀ l : list string, value = PyList (PyStr <$> l) → ¬ l ⊆ all_variables self →
     set_x_cols self value = Raise (Exc AssertionError "") ∧
     set_d_cols self value = Raise (Exc AssertionError "") ∧
     set_z_cols self value = Raise (Exc AssertionError "")).
Proof.
  split; [|split; [|split; [|split]]].
  - intros Hs Hl. unfold set_x_cols, set_d_cols, set_z_cols, z_cols_value.
    rewrite !cols_value_wrong_type by done. simpl.
    split; [done|]. split; [by eexists|]. split; [done|]. split; [by eexists|].
    intros Hn. destruct value; try done; simpl; split; try done; by eexists.
  - intros ->. eexists. split; reflexivity.
  - intros Hs. unfold set_y_col, y_col_value. by destruct value.
  - intros s -> Hs. unfold set_y_col, set_x_cols, set_d_cols, set_z_cols, z_cols_value.
    rewrite !cols_value_str_missing by done. unfold y_col_value.
    rewrite bool_decide_eq_false_2 by done. done.
  - intros l -> Hl. unfold set_x_cols, set_d_cols, set_z_cols, z_cols_value.
    by rewrite !cols_value_missing by done.
Qed.

End Refusals.

Lemma setters_reject_invalid_witness :
  (set_x_cols obj_ydx (PyInt 3) = Raise (Exc TypeError "x_cols must be a list") ∧
   rejects_naming "z_cols" (set_z_cols obj_ydx (PyInt 3))) ∧
  set_y_col obj_ydx (PyInt 3) = Raise (Exc AssertionError "") ∧
  set_d_cols obj_ydx (PyStr "w") = Raise (Exc AssertionError "") ∧
  set_x_cols obj_ydx (PyList [PyStr "x"; PyStr "w"]) = Raise (Exc AssertionError "") ∧
  (_z_cols obj_ydxz = Some ["z"] ∧
   ∃ self', set_z_cols obj_ydxz PyNone = Ok self' ∧ _z_cols self' = None).
Proof.
  destruct (setters_reject_invalid obj_ydxz PyNone) as (_ & Hnone & _).
  destruct (setters_reject_invalid obj_ydx (PyInt 3)) as (H1 & _ & H3 & _).
  destruct (H1 eq_refl eq_refl) as (Hx & _ & _ & _ & Hz).
  destruct (Hz ltac:(discriminate)) as [_ Hz'].
  destruct (setters_reject_invalid obj_ydx (PyStr "w")) as (_ & _ & _ & H4 & _).
  assert (Hw : "w" ∉ all_variables obj_ydx).
  { apply (bool_decide_unpack _). vm_compute. exact I. }
  destruct (H4 "w" eq_refl Hw) as (_ & _ & Hd & _).
  destruct (setters_reject_invalid obj_ydx (PyList [PyStr "x"; PyStr "w"]))
    as (_ & _ & _ & _ & H5).
  assert (Hl : ¬ ["x"; "w"] ⊆ all_variables obj_ydx).
  { intros H. apply Hw, H. right. left. }
  destruct (H5 ["x"; "w"] eq_refl Hl) as (Hx' & _).
  split; [split; [exact Hx | exact Hz'] |].
  split; [exact (H3 eq_refl) |]. split; [exact Hd |]. split; [exact Hx' |].
  split; [reflexivity | exact (Hnone eq_refl)].
Defined.

(** C8 as stated fails: the assertions carry no message, so the error for a
    non-string [y_col], or for a column the frame lacks, names nothing. *)
Lemma assertion_names_nothing :
  ¬ rejects_naming "y_col" (set_y_col obj_ydx (PyInt 3)) ∧
  ¬ rejects_naming "x_cols" (set_x_cols obj_ydx (PyStr "w")).
Proof.
  split; intros (e & He & Hm); vm_compute in He; injection He as <-;
    vm_compute in Hm; discriminate.
Qed.

(** ** The names generated by [from_arrays] *)

Lemma numbered_NoDup (pre : string) (k : nat) : NoDup (numbered pre k).
Proof.
  unfold numbered.
  assert (Hinj : Inj (=) (=) (λ i : nat, pre +:+ pretty (S i))).
  { intros i j Hij. apply (inj (String.app pre)) in Hij.
    apply (inj pretty) in Hij. lia. }
  apply (NoDup_fmap_2 _), NoDup_seq.
Qed.

Lemma numbered_length (pre : string) (k : nat) : length (numbered pre k) = k.
Proof. unfold numbered. by rewrite length_map, length_seq. Qed.

Lemma numbered_first_char (c : ascii) (k : nat) (s : string) :
  s ∈ numbered (String c EmptyString) k → first_char s = Some c.
Proof.
  unfold numbered. intros Hs. apply list_elem_of_In, in_map_iff in Hs.
  by destruct Hs as (i & <- & _).
Qed.

Lemma block_names_NoDup (c : ascii) (k : nat) : NoDup (block_names c k).
Proof.
  unfold block_names. destruct (Nat.eqb k 1).
  - apply NoDup_singleton.
  - apply numbered_NoDup.
Qed.

Lemma block_names_length (c : ascii) (k : nat) : length (block_names c k) = k.
Proof.
  unfold block_names. destruct (Nat.eqb_spec k 1) as [->|_]; [done|].
  apply numbered_length.
Qed.

Lemma block_names_first_char (c : ascii) (k : nat) (s : string) :
  s ∈ block_names c k → first_char s = Some c.
Proof.
  unfold block_names. destruct (Nat.eqb k 1).
  - by intros ->%list_elem_of_singleton.
  - apply numbered_first_char.
Qed.

(** Blocks of names that start with different characters, put side by side,
    repeat no name. *)
Lemma blocks_NoDup (xs ys ds zs : list string) (cx cy cd cz : ascii) :
  NoDup xs → NoDup ys → NoDup ds → NoDup zs →
  (∀ s, s ∈ xs → first_char s = Some cx) →
  (∀ s, s ∈ ys → first_char s = Some cy) →
  (∀ s, s ∈ ds → first_char s = Some cd) →
  (∀ s, s ∈ zs → first_char s = Some cz) →
  cx ≠ cy → cx ≠ cd → cx ≠ cz → cy ≠ cd → cy ≠ cz → cd ≠ cz →
  NoDup (xs ++ ys ++ ds ++ zs).
Proof.
  intros Nx Ny Nd Nz Fx Fy Fd Fz ? ? ? ? ? ?.
  apply NoDup_app; split; [done | split].
  2: apply NoDup_app; split; [done | split].
  3: apply NoDup_app; split; [done | split; [|done]].
  - intros s Hx Hs. apply Fx in Hx.
    apply elem_of_app in Hs as [Hs|Hs]; [apply Fy in Hs; congruence|].
    apply elem_of_app in Hs as [Hs|Hs]; [apply Fd in Hs | apply Fz in Hs]; congruence.
  - intros s Hy Hs. apply Fy in Hy.
    apply elem_of_app in Hs as [Hs|Hs]; [apply Fd in Hs | apply Fz in Hs]; congruence.
  - intros s Hd Hs. apply Fd in Hd. apply Fz in Hs. congruence.
Qed.

(** ** [__init__] returns on well-formed roles *)

Section InitReturns.
Context {V : Type}.
Implicit Types (self : DoubleMLData V) (df : DataFrame V).

Lemma column_member df (c : string) (v : list V) :
  NoDup (columns df) → (c, v) ∈ df_cols df → column df c = Some v.
Proof.
  intros Hnd Hin.
  assert (Hc : c ∈ columns df).
  { unfold columns. apply list_elem_of_In, in_map_iff. exists (c, v).
    split; [done | by apply list_elem_of_In]. }
  destruct (matching_unique df c Hnd Hc) as [v' Hv'].
  assert (Hm : (c, v) ∈ matching df c).
  { unfold matching. apply list_elem_of_filter. by split. }
  rewrite Hv' in Hm. apply list_elem_of_singleton in Hm as [= ->].
  unfold column. by rewrite Hv'.
Qed.

Lemma _set_y_z_returns self :
  NoDup (all_variables self) → _y_col self ∈ all_variables self →
  z_list self ⊆ all_variables self →
  ∃ self', _set_y_z self = Ok self'.
Proof.
  intros Hnd Hy Hz. unfold _set_y_z.
  destruct (loc_label_unique _ _ Hnd Hy) as (v & _ & ->). simpl.
  unfold z_list in Hz. destruct (_z_cols self) as [zc|]; simpl in *.
  - destruct (loc_list_unique _ _ Hnd Hz) as (f & -> & _). simpl. by eexists.
  - by eexists.
Qed.

Lemma _set_x_d_returns self (t : string) :
  NoDup (all_variables self) → roles_in_columns self → t ∈ _d_cols self →
  ∃ self', _set_x_d self t = Ok self'.
Proof.
  intros Hnd (_ & Hd & Hx & _) Ht. unfold _set_x_d.
  rewrite bool_decide_eq_true_2 by done. simpl.
  assert (Hxd : ∃ xd_list,
    (if use_other_treat_as_covariate self
     then match list_remove t (_x_cols self ++ _d_cols self) with
          | Some l => Ok l
          | None => Raise (Exc ValueError "list.remove(x): x not in list")
          end
     else Ok (_x_cols self)) = Ok xd_list ∧ xd_list ⊆ all_variables self).
  { destruct (use_other_treat_as_covariate self); [|by eexists].
    destruct (list_remove_elem t (_x_cols self ++ _d_cols self)) as [l Hl].
    { apply elem_of_app. by right. }
    rewrite Hl. exists l. split; [done|]. intros c Hc.
    apply (list_remove_subseteq _ _ _ Hl), elem_of_app in Hc as [Hc|Hc]; auto. }
  destruct Hxd as (xd_list & -> & Hsub). simpl.
  destruct (loc_label_unique _ _ Hnd (Hd _ Ht)) as (v & _ & ->). simpl.
  destruct (loc_list_unique _ _ Hnd Hsub) as (f & -> & _). simpl. by eexists.
Qed.

(** On a frame with unique labels, roles given as strings that are columns of
    the frame, with at least one treatment, are accepted. *)
Lemma init_returns df (yc : string) (dl xl : list string)
    (zl : option (list string)) (b : bool) :
  NoDup (columns df) → yc ∈ columns df → dl ⊆ columns df → dl ≠ [] →
  xl ⊆ columns df → default [] zl ⊆ columns df →
  ∃ self,
    __init__ df (PyStr yc) (PyList (PyStr <$> dl)) (PyList (PyStr <$> xl))
      (match zl with Some zc => PyList (PyStr <$> zc) | None => PyNone end) b
    = Ok self.
Proof.
  intros Hnd Hy Hd Hne Hx Hz. unfold __init__.
  rewrite (proj2 (y_col_value_Ok (columns df) (PyStr yc) yc)) by done. simpl.
  rewrite (cols_value_strings _ _ _ Hd). simpl.
  assert (Hzv : z_cols_value (columns df)
            (match zl with Some zc => PyList (PyStr <$> zc) | None => PyNone end)
          = Ok zl).
  { destruct zl as [zc|]; [|done]. unfold z_cols_value.
    by rewrite (cols_value_strings _ _ _ Hz). }
  rewrite Hzv. simpl. rewrite (cols_value_strings _ _ _ Hx). simpl.
  destruct (_set_y_z_returns
              (mkData df yc dl xl zl b (Series []) None (Series []) (mkFrame 0 [])))
    as [self1 H1]; try done.
  rewrite H1. simpl.
  destruct (_set_y_z_fields _ _ H1) as (E1 & E2 & E3 & E4 & E5 & _). simpl in *.
  rewrite E3. destruct dl as [|t dl]; [done|].
  apply _set_x_d_returns.
  - unfold all_variables. by rewrite E1.
  - unfold roles_in_columns, all_variables, z_list. by rewrite E1, E2, E3, E4, E5.
  - rewrite E3. left.
Qed.

End InitReturns.

(** ** [from_arrays] *)

Section FromArrays.
Context {V : Type}.
Implicit Types (self : DoubleMLData V) (df : DataFrame V).

Lemma assure_2d_array_eq (a : ndarray V) :
  assure_2d_array a = Ok (Arr2 (shape0 a) (as_columns a)).
Proof. by destruct a. Qed.

Lemma column_stack_ok (a : ndarray V) (arrays : list (ndarray V)) :
  Forall (λ b, shape0 b = shape0 a) arrays →
  column_stack (a :: arrays)
  = Ok (Arr2 (shape0 a) (concat (map as_columns (a :: arrays)))).
Proof.
  intros H. unfold column_stack.
  assert (Hall : forallb (λ b, Nat.eqb (shape0 b) (shape0 a)) (a :: arrays) = true).
  { simpl. rewrite Nat.eqb_refl. simpl.
    induction H as [|b bs Hb _ IH]; [done|]. simpl.
    by rewrite Hb, Nat.eqb_refl. }
  by rewrite Hall.
Qed.

Lemma pd_DataFrame_ok (n : nat) (cols : list (list V)) (names : list string) :
  length cols = length names →
  pd_DataFrame (Arr2 n cols) names = Ok (mkFrame n (zip names cols)).
Proof. intros H. unfold pd_DataFrame. by rewrite H, Nat.eqb_refl. Qed.

(** With arrays that agree on the number of rows, [from_arrays] is
    [__init__] on the stacked frame with the generated names. *)
Lemma from_arrays_init (X d : ndarray V) (yv : list V)
    (zcols : option (list (list V))) (b : bool) :
  shape0 X = length yv → shape0 d = length yv →
  from_arrays X (Arr1 yv) d (Arr2 (length yv) <$> zcols) b =
  __init__ (stacked_frame (length yv) (as_columns X) yv (as_columns d) zcols)
    (PyStr "y")
    (PyList (PyStr <$> block_names "d" (length (as_columns d))))
    (PyList (PyStr <$> numbered "X" (length (as_columns X))))
    (match zcols with
     | Some zc => PyList (PyStr <$> block_names "z" (length zc))
     | None => PyNone
     end) b.
Proof.
  intros HX Hd. unfold from_arrays. rewrite !assure_2d_array_eq.
  cbn [mbind result_bind]. rewrite HX, Hd.
  destruct zcols as [zc|]; cbn [fmap option_fmap option_map shape1 mbind result_bind];
    fold (block_names "d" (length (as_columns d))).
  - fold (block_names "z" (length zc)).
    replace (if (length zc =? 1)%nat then Ok (Some ["z"]) else Ok (Some (numbered "z" (length zc))))
      with (Ok (A:=option (list string)) (Some (block_names "z" (length zc)))).
    2:{ unfold block_names. by destruct (Nat.eqb (length zc) 1). }
    cbn [mbind result_bind].
    rewrite (column_stack_ok (Arr2 (length yv) (as_columns X))).
    2:{ repeat constructor. }
    cbn [mbind result_bind shape0 map concat as_columns].
    rewrite pd_DataFrame_ok.
    2:{ rewrite !length_app, numbered_length, !block_names_length. cbn [length]. lia. }
    cbn [mbind result_bind]. unfold stacked_frame. cbn [default from_option].
    by rewrite app_nil_r.
  - rewrite (column_stack_ok (Arr2 (length yv) (as_columns X))).
    2:{ repeat constructor. }
    cbn [mbind result_bind shape0 map concat as_columns].
    rewrite pd_DataFrame_ok.
    2:{ rewrite !length_app, numbered_length, !block_names_length. cbn [length]. lia. }
    cbn [mbind result_bind]. unfold stacked_frame. cbn [default from_option].
    by rewrite !app_nil_r.
Qed.

Lemma stacked_frame_cols (n : nat) (xcols : list (list V)) (yv : list V)
    (dcols : list (list V)) (zcols : option (list (list V))) :
  df_cols (stacked_frame n xcols yv dcols zcols) =
  zip (numbered "X" (length xcols)) xcols ++
  [("y", yv)] ++
  zip (block_names "d" (length dcols)) dcols ++
  zip (match zcols with Some zc => block_names "z" (length zc) | None => [] end)
      (default [] zcols).
Proof.
  unfold stacked_frame. cbn [df_cols].
  rewrite zip_with_app by apply numbered_length.
  rewrite (zip_with_app _ ["y"] _ [yv]) by done.
  by rewrite zip_with_app by apply block_names_length.
Qed.

Lemma stacked_frame_columns (n : nat) (xcols : list (list V)) (yv : list V)
    (dcols : list (list V)) (zcols : option (list (list V))) :
  columns (stacked_frame n xcols yv dcols zcols) =
  numbered "X" (length xcols) ++ ["y"] ++ block_names "d" (length dcols) ++
  match zcols with Some zc => block_names "z" (length zc) | None => [] end.
Proof.
  unfold columns, stacked_frame. cbn [df_cols]. apply fst_zip.
  rewrite !length_app, numbered_length, block_names_length. cbn [length].
  destruct zcols; cbn [default from_option length id]; rewrite ?block_names_length; lia.
Qed.

Lemma stacked_frame_NoDup (n : nat) (xcols : list (list V)) (yv : list V)
    (dcols : list (list V)) (zcols : option (list (list V))) :
  NoDup (columns (stacked_frame n xcols yv dcols zcols)).
Proof.
  rewrite stacked_frame_columns.
  apply (blocks_NoDup _ _ _ _ "X"%char "y"%char "d"%char "z"%char); try done.
  - apply numbered_NoDup.
  - apply NoDup_singleton.
  - apply block_names_NoDup.
  - destruct zcols; [apply block_names_NoDup | apply NoDup_nil_2].
  - apply numbered_first_char.
  - by intros s ->%list_elem_of_singleton.
  - apply block_names_first_char.
  - destruct zcols; [apply block_names_first_char|].
    intros s Hs. by apply elem_of_nil in Hs.
Qed.

Lemma zip_Forall2 {A B : Type} (P : A → B → Prop) (l : list A) (k : list B) :
  length l = length k → (∀ a b, (a, b) ∈ zip l k → P a b) → Forall2 P l k.
Proof.
  revert k. induction l as [|a l IH]; intros [|b k] Hlen H; try done.
  constructor.
  - apply H. left.
  - apply IH; [by injection Hlen|]. intros a' b' Hab. apply H. by right.
Qed.

Lemma stacked_frame_column_y (n : nat) (xcols : list (list V)) (yv : list V)
    (dcols : list (list V)) (zcols : option (list (list V))) :
  column (stacked_frame n xcols yv dcols zcols) "y" = Some yv.
Proof.
  apply column_member; [apply stacked_frame_NoDup|].
  rewrite stacked_frame_cols. apply elem_of_app. right. left.
Qed.

Lemma stacked_frame_column_d (n : nat) (xcols : list (list V)) (yv : list V)
    (dcols : list (list V)) (zcols : option (list (list V))) (t : string)
    (v : list V) :
  head (block_names "d" (length dcols)) = Some t → head dcols = Some v →
  column (stacked_frame n xcols yv dcols zcols) t = Some v.
Proof.
  intros Ht Hv. apply column_member; [apply stacked_frame_NoDup|].
  rewrite stacked_frame_cols. apply elem_of_app. right. right.
  apply elem_of_app. left.
  destruct (block_names "d" (length dcols)) as [|t' dn]; [done|].
  destruct dcols as [|v' dcols]; [done|]. simpl in *.
  injection Ht as ->. injection Hv as ->. left.
Qed.

Lemma stacked_frame_submatrix_X (n : nat) (xcols : list (list V)) (yv : list V)
    (dcols : list (list V)) (zcols : option (list (list V))) :
  submatrix (stacked_frame n xcols yv dcols zcols) (numbered "X" (length xcols))
  = Some (Arr2 n xcols).
Proof.
  unfold submatrix.
  assert (H : mapM (column (stacked_frame n xcols yv dcols zcols))
                (numbered "X" (length xcols)) = Some xcols).
  { apply mapM_Some, zip_Forall2; [apply numbered_length|].
    intros c v Hcv. apply column_member; [apply stacked_frame_NoDup|].
    rewrite stacked_frame_cols. apply elem_of_app. by left. }
  by rewrite H.
Qed.

(** Where [from_arrays] gives the arrays back.  For arrays of one element
    type: a covariate array with n rows, an outcome vector of length n, a
    treatment array with n rows (a vector or a matrix with at least one
    column) and, optionally, an instrument matrix with n rows (two
    dimensions): the call returns an instance with
    [n_obs = n]; [y] is the outcome; [d] is the first treatment column; [x] is
    the covariate array when there is one treatment column (or when the other
    treatments are not used as covariates); the covariates are named X1..Xp,
    the outcome y, the treatments d or d1, d2, ..., the instruments z or
    z1, z2, ... *)
Theorem from_arrays_round_trip (n : nat) (xcols : list (list V)) (yv : list V)
    (d_arr : ndarray V) (zcols : option (list (list V))) (b : bool) :
  length yv = n → shape0 d_arr = n → as_columns d_arr ≠ [] →
  ∃ self,
    from_arrays (Arr2 n xcols) (Arr1 yv) d_arr (Arr2 n <$> zcols) b = Ok self ∧
    n_obs self = n ∧
    y self = Arr1 yv ∧
    Some (d self) = Arr1 <$> head (as_columns d_arr) ∧
    (length (as_columns d_arr) = 1 ∨ b = false → x self = Arr2 n xcols) ∧
    _x_cols self = numbered "X" (length xcols) ∧
    _y_col self = "y" ∧
    _d_cols self = block_names "d" (length (as_columns d_arr)) ∧
    _z_cols self = (λ zc, block_names "z" (length zc)) <$> zcols.
Proof.
  intros <- Hd Hne.
  rewrite (from_arrays_init (Arr2 (length yv) xcols)) by done.
  cbn [as_columns]. set (dcols := as_columns d_arr) in *.
  set (df := stacked_frame (length yv) xcols yv dcols zcols).
  set (xn := numbered "X" (length xcols)).
  set (dn := block_names "d" (length dcols)).
  set (zn := (λ zc : list (list V), block_names "z" (length zc)) <$> zcols).
  pose proof (stacked_frame_NoDup (length yv) xcols yv dcols zcols) as Hnd.
  pose proof (stacked_frame_columns (length yv) xcols yv dcols zcols) as Hcols.
  fold df in Hnd, Hcols. fold xn dn in Hcols.
  assert (Hdn : dn ≠ []).
  { intros E. apply (f_equal length) in E. unfold dn in E.
    rewrite block_names_length in E. by destruct dcols. }
  assert (Hy_in : "y" ∈ columns df) by (rewrite Hcols; set_solver).
  assert (Hx_in : xn ⊆ columns df) by (rewrite Hcols; set_solver).
  assert (Hd_in : dn ⊆ columns df) by (rewrite Hcols; set_solver).
  assert (Hz_in : default [] zn ⊆ columns df).
  { rewrite Hcols. unfold zn. destruct zcols; simpl; set_solver. }
  assert (Hz_arg : match zcols with
                   | Some zc => PyList (PyStr <$> block_names "z" (length zc))
                   | None => PyNone
                   end
                   = match zn with Some zc => PyList (PyStr <$> zc) | None => PyNone end).
  { unfold zn. by destruct zcols. }
  rewrite Hz_arg.
  destruct (init_returns df "y" dn xn zn b) as [self Hself]; try done.
  exists self. split; [done|].
  destruct (init_fields _ _ _ _ _ _ _ Hself) as (Edf & Eb & Ey & Ed & Ez & Ex).
  apply y_col_value_Ok in Ey as [[= Ey] _].
  rewrite (cols_value_strings _ _ _ Hd_in) in Ed. injection Ed as Ed. symmetry in Ed.
  rewrite (cols_value_strings _ _ _ Hx_in) in Ex. injection Ex as Ex. symmetry in Ex.
  assert (Ez' : _z_cols self = zn).
  { unfold z_cols_value in Ez. destruct zn as [zc|]; simpl in *; [|congruence].
    rewrite (cols_value_strings _ _ _ Hz_in) in Ez. simpl in Ez. congruence. }
  assert (Htd : ∃ t v, head dn = Some t ∧ head dcols = Some v).
  { destruct dn as [|t ?]; [done|]. destruct dcols as [|v ?]; [done|]. by exists t, v. }
  destruct Htd as (t & v & Ht & Hv).
  destruct (init_presliced _ _ _ _ _ _ _ Hself) as (self0 & t' & Hroles & Hdf0 & Ht' & Hset).
  rewrite Ed, Ht in Ht'. injection Ht' as <-.
  assert (Hsl : slices_as_computed self t).
  { apply (_set_x_d_slices self0); [done| |done]. unfold all_variables. by rewrite Hdf0. }
  destruct Hsl as (Hx1 & Hx0 & Hdsl). rewrite Edf, Ex, Ed in *.
  split; [by unfold n_obs; rewrite Edf|].
  split.
  { destruct (init_inv _ _ _ _ _ _ _ Hself)
      as (yc & dc & zc & xc & t0 & self1 & Hyv & _ & _ & _ & H1 & _ & H2).
    apply y_col_value_Ok in Hyv as [[= <-] _].
    apply _set_y_z_fields in H1 as (_ & _ & _ & _ & _ & _ & Hloc). simpl in Hloc.
    apply _set_x_d_fields in H2 as (_ & _ & _ & _ & _ & _ & Hyy & _).
    destruct (loc_label_unique df "y" Hnd Hy_in) as (w & Hw & Hl).
    unfold df in Hw. rewrite stacked_frame_column_y in Hw. injection Hw as <-.
    fold df in Hloc. rewrite Hl in Hloc. injection Hloc as Hloc.
    unfold y. by rewrite Hyy, <- Hloc. }
  split.
  { rewrite Hdsl, Hv. unfold df.
    by rewrite (stacked_frame_column_d _ _ _ _ _ t v). }
  split; [|by rewrite <- Ey, Ez'].
  intros [Hone|Hfalse].
  - destruct b.
    + destruct (Hx1 Eb) as (xd_list & _ & Hsub & Hexact).
      destruct Hexact as [-> _].
      * intros Hin. apply numbered_first_char in Hin.
        assert (Hin' : t ∈ dn) by (destruct dn; [done | injection Ht as ->; left]).
        apply block_names_first_char in Hin'. congruence.
      * apply block_names_NoDup.
      * unfold dn, block_names in Hsub, Ht.
        rewrite Hone in Hsub, Ht. simpl in Hsub, Ht. injection Ht as <-.
        rewrite filter_cons_False, filter_nil, app_nil_r in Hsub by (intros H; by apply H).
        unfold df, xn in Hsub. rewrite stacked_frame_submatrix_X in Hsub.
        congruence.
    + specialize (Hx0 Eb). unfold df, xn in Hx0.
      rewrite stacked_frame_submatrix_X in Hx0. congruence.
  - rewrite Hfalse in Eb. specialize (Hx0 Eb). unfold df, xn in Hx0.
    rewrite stacked_frame_submatrix_X in Hx0. congruence.
Qed.

End FromArrays.

(** C10: [from_arrays] does not give the arrays back for every instrument
    array.  With the instruments as a matrix of one column the call returns
    and the accessors give y, d, X and that matrix; with the same instruments
    as a vector, the way [d] is given here, it raises [IndexError]:
    [z.shape[1]] is read from [z] as passed, and only [X] and [d] go through
    [assure_2d_array]. *)
Theorem from_arrays_instrument_vector :
  (∃ self : DoubleMLData Z,
     from_arrays (Arr2 2 [[1; 2]; [3; 4]]%Z) (Arr1 [5; 6]%Z) (Arr1 [0; 1]%Z)
       (Some (Arr2 2 [[1; 0]%Z])) true = Ok self ∧
     y self = Arr1 [5; 6]%Z ∧ d self = Arr1 [0; 1]%Z ∧
     x self = Arr2 2 [[1; 2]; [3; 4]]%Z ∧
     z self = Ok (Some (Arr2 2 [[1; 0]%Z]))) ∧
  from_arrays (Arr2 2 [[1; 2]; [3; 4]]%Z) (Arr1 [5; 6]%Z) (Arr1 [0; 1]%Z)
    (Some (Arr1 [1; 0]%Z)) true
  = Raise (Exc IndexError "tuple index out of range").
Proof.
  split; [|vm_compute; reflexivity].
  eexists. repeat split; vm_compute; reflexivity.
Qed.

Lemma from_arrays_round_trip_witness :
  (length [5; 6]%Z = 2 ∧ shape0 (Arr1 [0; 1]%Z) = 2 ∧ as_columns (Arr1 [0; 1]%Z) ≠ []) ∧
  ∃ self : DoubleMLData Z,
    from_arrays (Arr2 2 [[1; 2]; [3; 4]]%Z) (Arr1 [5; 6]%Z) (Arr1 [0; 1]%Z)
      (Arr2 2 <$> Some [[7; 8]%Z]) true = Ok self ∧
    n_obs self = 2 ∧
    y self = Arr1 [5; 6]%Z ∧
    Some (d self) = Some (Arr1 [0; 1]%Z) ∧
    (1 = 1 ∨ true = false → x self = Arr2 2 [[1; 2]; [3; 4]]%Z) ∧
    _x_cols self = ["X1"; "X2"] ∧
    _y_col self = "y" ∧
    _d_cols self = ["d"] ∧
    _z_cols self = Some ["z"].
Proof.
  assert (H1 : length [5; 6]%Z = 2) by reflexivity.
  assert (H2 : shape0 (Arr1 [0; 1]%Z) = 2) by reflexivity.
  assert (H3 : as_columns (Arr1 [0; 1]%Z) ≠ []) by discriminate.
  split; [by repeat split|].
  exact (from_arrays_round_trip 2 [[1; 2]; [3; 4]]%Z [5; 6]%Z (Arr1 [0; 1]%Z)
           (Some [[7; 8]%Z]) true H1 H2 H3).
Defined.

(** ** Checks at the construction of the potential-quantile estimator *)

Section PotentialQuantileFacts.
Context {V : Type}.
Variable str_float : Q → string.
Implicit Types (obj : dml_data V) (self : DoubleMLPQ V).

Lemma _check_quantile_names (q : pyval) (e : pyexc) :
  _check_quantile str_float q = Raise e → mentions "Quantile" (exc_msg e) = true.
Proof.
  unfold _check_quantile. destruct q; try (intros [= <-]; by apply mentions_starts).
  case_match; [|discriminate]. intros [= <-]. by apply mentions_starts.
Qed.

Lemma _check_treatment_names (t : pyval) (e : pyexc) :
  _check_treatment t = Raise e → mentions "Treatment indicator" (exc_msg e) = true.
Proof.
  unfold _check_treatment. destruct t; try (intros [= <-]; by apply mentions_starts).
  - case_match; [discriminate|]. intros [= <-]. by apply mentions_starts.
  - case_match; [discriminate|]. intros [= <-]. by apply mentions_starts.
Qed.

Lemma _check_bandwidth_names (bw : pyval) (e : pyexc) :
  _check_bandwidth str_float bw = Raise e → mentions "Bandwidth" (exc_msg e) = true.
Proof.
  unfold _check_bandwidth. destruct bw; try (intros [= <-]; by apply mentions_starts).
  case_match; [|discriminate]. intros [= <-]. by apply mentions_starts.
Qed.

Lemma _check_normalize_names (nz : pyval) (e : pyexc) :
  _check_normalize nz = Raise e →
  mentions "Normalization indicator" (exc_msg e) = true.
Proof.
  unfold _check_normalize. destruct nz; try discriminate;
    intros [= <-]; by apply mentions_starts.
Qed.

(** C5: what is not implemented says so.  [tune] on a potential-quantile
    model raises [NotImplementedError] with the message 'Nuisance tuning not
    implemented for potential quantiles.', and constructing the model on data
    that declares cluster variables raises [NotImplementedError] with the
    message 'Estimation with clustering not implemented.', whatever the other
    arguments: no model is returned. *)
Theorem unsupported_combinations_raise self
    (param_grids : list (string * list (string * list pyval)))
    obj (t q bw nz : pyval) :
  tune self param_grids =
    Raise (Exc NotImplementedError
             "Nuisance tuning not implemented for potential quantiles.") ∧
  (is_cluster_data obj = true →
   DoubleMLPQ_init str_float obj t q bw nz =
     Raise (Exc NotImplementedError "Estimation with clustering not implemented.")).
Proof.
  split; [done|]. intros Hc. unfold DoubleMLPQ_init. by rewrite Hc.
Qed.

(** C6: the parameters are checked when the model is constructed.  Each
    check raises the stated class with a message that starts with the name of
    the parameter; a check that raises makes the construction raise the same
    exception (the first one, in the order quantile, treatment, bandwidth,
    normalization), so that no model exists to be fitted. *)
Theorem pq_parameters_validated obj (t q bw nz : pyval) :
  (is_float q = false →
     _check_quantile str_float q =
       Raise (Exc TypeError ("Quantile has to be a float. " +:+ type_passed q))) ∧
  (∀ r : Q, q = PyFloat r → ¬ (0 < r ∧ r < 1)%Q →
     _check_quantile str_float q =
       Raise (Exc ValueError
                ("Quantile has be between 0 or 1. Quantile " +:+ str_float r +:+ " passed."))) ∧
  (is_int t = false →
     _check_treatment t =
       Raise (Exc TypeError ("Treatment indicator has to be an integer. " +:+ type_passed t))) ∧
  (∀ k : Z, t = PyInt k → k ≠ 0%Z → k ≠ 1%Z →
     _check_treatment t =
       Raise (Exc ValueError
                ("Treatment indicator has be either 0 or 1. Treatment indicator "
                 +:+ pretty k +:+ " passed."))) ∧
  (is_float bw = false →
     _check_bandwidth str_float bw =
       Raise (Exc TypeError ("Bandwidth has to be a float. " +:+ type_passed bw))) ∧
  (∀ r : Q, bw = PyFloat r → (r <= 0)%Q →
     _check_bandwidth str_float bw =
       Raise (Exc ValueError
                ("Bandwidth has be positive. Bandwidth " +:+ str_float r +:+ " passed."))) ∧
  (is_bool nz = false →
     _check_normalize nz =
       Raise (Exc TypeError
                ("Normalization indicator has to be boolean. " +:+ type_passed nz))) ∧
  (∀ e : pyexc,
     (_check_quantile str_float q = Raise e → mentions "Quantile" (exc_msg e) = true) ∧
     (_check_treatment t = Raise e → mentions "Treatment indicator" (exc_msg e) = true) ∧
     (_check_bandwidth str_float bw = Raise e → mentions "Bandwidth" (exc_msg e) = true) ∧
     (_check_normalize nz = Raise e →
        mentions "Normalization indicator" (exc_msg e) = true)) ∧
  (∀ e : pyexc,
     _check_quantile str_float q = Raise e ∨ _check_treatment t = Raise e ∨
     _check_bandwidth str_float bw = Raise e ∨ _check_normalize nz = Raise e →
     is_ok (DoubleMLPQ_init str_float obj t q bw nz) = false) ∧
  (is_cluster_data obj = false → ∀ e : pyexc,
     (_check_quantile str_float q = Raise e →
        DoubleMLPQ_init str_float obj t q bw nz = Raise e) ∧
     (is_ok (_check_quantile str_float q) = true → _check_treatment t = Raise e →
        DoubleMLPQ_init str_float obj t q bw nz = Raise e) ∧
     (is_ok (_check_quantile str_float q) = true → is_ok (_check_treatment t) = true →
      _check_bandwidth str_float bw = Raise e →
        DoubleMLPQ_init str_float obj t q bw nz = Raise e) ∧
     (is_ok (_check_quantile str_float q) = true → is_ok (_check_treatment t) = true →
      is_ok (_check_bandwidth str_float bw) = true → _check_normalize nz = Raise e →
        DoubleMLPQ_init str_float obj t q bw nz = Raise e)).
Proof.
  repeat apply conj.
  - by destruct q.
  - intros r -> Hr. unfold _check_quantile.
    destruct (Qle_bool r 0) eqn:E0; [done|]. destruct (Qle_bool 1 r) eqn:E1; [done|].
    exfalso. apply Hr. split; apply Qnot_le_lt; intros H%Qle_bool_iff; congruence.
  - by destruct t.
  - intros k -> H0 H1. unfold _check_treatment.
    destruct (Z.eqb_spec k 0); [done|]. by destruct (Z.eqb_spec k 1).
  - by destruct bw.
  - intros r -> Hr%Qle_bool_iff. unfold _check_bandwidth. by rewrite Hr.
  - by destruct nz.
  - intros e. repeat split.
    + apply _check_quantile_names.
    + apply _check_treatment_names.
    + apply _check_bandwidth_names.
    + apply _check_normalize_names.
  - intros e H. unfold DoubleMLPQ_init. destruct (is_cluster_data obj); [done|].
    destruct (_check_quantile str_float q); simpl; [|done].
    destruct (_check_treatment t); simpl; [|done].
    destruct (_check_bandwidth str_float bw); simpl; [|done].
    destruct (_check_normalize nz); simpl; [|done].
    by destruct H as [H|[H|[H|H]]].
  - intros Hc e. unfold DoubleMLPQ_init. rewrite Hc. repeat split.
    + by intros ->.
    + destruct (_check_quantile str_float q); [|done]. by intros _ ->.
    + destruct (_check_quantile str_float q); [|done].
      destruct (_check_treatment t); [|done]. by intros _ _ ->.
    + destruct (_check_quantile str_float q); [|done].
      destruct (_check_treatment t); [|done].
      destruct (_check_bandwidth str_float bw); [|done]. by intros _ _ _ ->.
Qed.

End PotentialQuantileFacts.

Lemma unsupported_combinations_raise_witness :
  is_cluster_data (mkDmlData obj_ydx (Some ["cluster_var_i"; "cluster_var_j"])) = true ∧
  DoubleMLPQ_init str_fraction
    (mkDmlData obj_ydx (Some ["cluster_var_i"; "cluster_var_j"]))
    (PyInt 1) (PyFloat (1 # 2)) (PyFloat (1 # 10)) (PyBool true) =
  Raise (Exc NotImplementedError "Estimation with clustering not implemented.").
Proof.
  split; [reflexivity|].
  exact (proj2 (unsupported_combinations_raise str_fraction
                  (mkPQ (mkDmlData obj_ydx None) 1 (1 # 2) (1 # 10) true) []
                  (mkDmlData obj_ydx (Some ["cluster_var_i"; "cluster_var_j"]))
                  (PyInt 1) (PyFloat (1 # 2)) (PyFloat (1 # 10)) (PyBool true))
           eq_refl).
Defined.

Lemma pq_parameters_validated_witness :
  _check_quantile str_fraction (PyStr "0.4") =
    Raise (Exc TypeError "Quantile has to be a float. Object of type <class 'str'> passed.") ∧
  _check_treatment (PyInt 2) =
    Raise (Exc ValueError
             "Treatment indicator has be either 0 or 1. Treatment indicator 2 passed.") ∧
  _check_bandwidth str_fraction (PyFloat (-1 # 10)) =
    Raise (Exc ValueError "Bandwidth has be positive. Bandwidth -1/10 passed.") ∧
  DoubleMLPQ_init str_fraction (mkDmlData obj_ydx None)
    (PyInt 1) (PyFloat (1 # 2)) (PyFloat (1 # 10)) (PyInt 1) =
    Raise (Exc TypeError
             "Normalization indicator has to be boolean. Object of type <class 'int'> passed.").
Proof.
  pose proof (pq_parameters_validated str_fraction (mkDmlData obj_ydx None)
                (PyInt 1) (PyStr "0.4") (PyFloat (1 # 10)) (PyBool true))
    as (Hq & _).
  pose proof (pq_parameters_validated str_fraction (mkDmlData obj_ydx None)
                (PyInt 2) (PyFloat (1 # 2)) (PyFloat (-1 # 10)) (PyInt 1))
    as (_ & _ & _ & Ht & _ & Hb & _).
  pose proof (pq_parameters_validated str_fraction (mkDmlData obj_ydx None)
                (PyInt 1) (PyFloat (1 # 2)) (PyFloat (1 # 10)) (PyInt 1))
    as (_ & _ & _ & _ & _ & _ & Hn & _ & _ & Hinit).
  split; [exact (Hq eq_refl)|].
  split; [exact (Ht 2%Z eq_refl ltac:(discriminate) ltac:(discriminate))|].
  split; [exact (Hb (-1 # 10) eq_refl ltac:(discriminate))|].
  destruct (Hinit eq_refl
              (Exc TypeError
                 "Normalization indicator has to be boolean. Object of type <class 'int'> passed."))
    as (_ & _ & _ & H4).
  exact (H4 eq_refl eq_refl eq_refl (Hn eq_refl)).
Defined.

(** ** Partitions supplied from outside *)

Local Open Scope nat_scope.

Section Counting.
Context {A : Type} (P : A → Prop) `{!∀ a, Decision (P a)}.

Lemma filter_length_pos (l : list A) (a : A) :
  a ∈ l → P a → 1 ≤ length (filter P l).
Proof.
  intros Hin Ha.
  assert (Hf : a ∈ filter P l) by (by apply list_elem_of_filter).
  destruct (filter P l); [by apply elem_of_nil in Hf | simpl; lia].
Qed.

Lemma filter_length_two (l : list A) (i j : nat) (a b : A) :
  i < j → l !! i = Some a → l !! j = Some b → P a → P b →
  2 ≤ length (filter P l).
Proof.
  revert i j. induction l as [|c l IH]; intros i j Hij Hi Hj Ha Hb; [done|].
  destruct j as [|j]; [lia|]. simpl in Hj.
  destruct i as [|i]; simpl in Hi.
  - injection Hi as ->. rewrite filter_cons_True by done. simpl.
    assert (1 ≤ length (filter P l)); [|lia].
    apply (filter_length_pos l b); [|done]. by eapply list_elem_of_lookup_2.
  - assert (2 ≤ length (filter P l)) by (apply (IH i j); [lia|done..]).
    destruct (decide (P c)).
    + rewrite filter_cons_True by done. simpl. lia.
    + by rewrite filter_cons_False.
Qed.

Lemma filter_length_two_inv (l : list A) :
  2 ≤ length (filter P l) →
  ∃ (i j : nat) (a b : A), i < j ∧ l !! i = Some a ∧ l !! j = Some b ∧ P a ∧ P b.
Proof.
  induction l as [|c l IH]; simpl; [lia|]. intros Hlen.
  destruct (decide (P c)) as [Hc|Hc].
  - rewrite filter_cons_True in Hlen by done. simpl in Hlen.
    destruct (filter P l) as [|b r] eqn:E; [simpl in Hlen; lia|].
    assert (Hb : b ∈ filter P l) by (rewrite E; left).
    apply list_elem_of_filter in Hb as [Hb Hin].
    apply list_elem_of_lookup in Hin as [j Hj].
    exists 0, (S j), c, b. repeat split; try done. lia.
  - rewrite filter_cons_False in Hlen by done.
    destruct (IH Hlen) as (i & j & a & b & Hij & Hi & Hj & Ha & Hb).
    exists (S i), (S j), a, b. repeat split; try done. lia.
Qed.

End Counting.

Lemma covers_once_spec (n : nat) (folds : list fold) :
  covers_once n folds = true ↔ partition_complete n folds.
Proof.
  unfold covers_once, partition_complete.
  rewrite andb_true_iff, !forallb_forall. split.
  - intros [Hone Hrange].
    assert (Hlt : ∀ (f : fold) (k : nat), f ∈ folds → k ∈ f.2 → k < n).
    { intros f k Hf Hk. apply list_elem_of_In, Hrange in Hf.
      rewrite forallb_forall in Hf. apply list_elem_of_In, Hf in Hk.
      by apply Nat.ltb_lt in Hk. }
    split.
    + intros i j f g Hij Hi Hj k Hkf Hkg.
      assert (Hk : k < n) by (eapply Hlt; [by eapply list_elem_of_lookup_2 | done]).
      assert (Hin : In k (seq 0 n)) by (apply in_seq; lia).
      apply Hone, Nat.eqb_eq in Hin.
      assert (2 ≤ length (filter (λ f : fold, k ∈ f.2) folds)); [|lia].
      destruct (decide (i < j)).
      * by apply (filter_length_two _ folds i j f g).
      * apply (filter_length_two _ folds j i g f); try done. lia.
    + intros k. split; [intros (f & Hf & Hk); by eapply Hlt|].
      intros Hk. assert (Hin : In k (seq 0 n)) by (apply in_seq; lia).
      apply Hone, Nat.eqb_eq in Hin.
      destruct (filter (λ f : fold, k ∈ f.2) folds) as [|f r] eqn:E; [done|].
      assert (Hf : f ∈ filter (λ f : fold, k ∈ f.2) folds) by (rewrite E; left).
      apply list_elem_of_filter in Hf as [Hkf Hf]. by exists f.
  - intros [Hdisj Hcover]. split.
    + intros k [_ Hk]%in_seq. simpl in Hk. apply Nat.eqb_eq.
      destruct (proj2 (Hcover k) Hk) as (f & Hf & Hkf).
      pose proof (filter_length_pos (λ f : fold, k ∈ f.2) folds f Hf Hkf) as H1.
      destruct (decide (2 ≤ length (filter (λ f : fold, k ∈ f.2) folds))) as [H2|]; [|lia].
      apply filter_length_two_inv in H2 as (i & j & a & b & Hij & Hi & Hj & Ha & Hb).
      exfalso. apply (Hdisj i j a b ltac:(lia) Hi Hj k Ha Hb).
    + intros f Hf%list_elem_of_In. apply forallb_forall.
      intros k Hk%list_elem_of_In. apply Nat.ltb_lt, Hcover. by exists f.
Qed.

Lemma covers_all_spec (n : nat) (all_smpls : list (list fold)) :
  forallb (covers_once n) all_smpls = true ↔ Forall (partition_complete n) all_smpls.
Proof.
  rewrite forallb_forall, Forall_forall. split.
  - intros H folds Hin. apply covers_once_spec, H. by apply list_elem_of_In.
  - intros H folds Hin. apply covers_once_spec, H. by apply list_elem_of_In.
Qed.

(** C9: partitions supplied from outside are checked before they are used.
    If in every repetition the test sets of different folds are disjoint and
    together make up all of 0, ..., n-1, the partitions are stored and the
    engine is merely split; otherwise [set_sample_splitting] raises
    [ValueError] and there is no engine to fit. *)
Theorem set_sample_splitting_validates (self : DoubleML)
    (all_smpls : list (list fold)) :
  (Forall (partition_complete (engine_n_obs self)) all_smpls →
   ∃ self', set_sample_splitting self all_smpls = Ok self' ∧
            smpls self' = Some all_smpls ∧ n_rep self' = length all_smpls ∧
            state self' = SPLIT) ∧
  (¬ Forall (partition_complete (engine_n_obs self)) all_smpls →
   ∃ msg, set_sample_splitting self all_smpls = Raise (Exc ValueError msg)).
Proof.
  unfold set_sample_splitting. split.
  - intros H%covers_all_spec. rewrite H. by eexists.
  - intros H. destruct (forallb _ all_smpls) eqn:E; [|by eexists].
    by apply covers_all_spec in E.
Qed.

Lemma set_sample_splitting_validates_witness :
  (∃ self', set_sample_splitting (mkEngine 5 5 1 None UNFIT) smpls_ok = Ok self' ∧
            smpls self' = Some smpls_ok ∧ n_rep self' = 1 ∧ state self' = SPLIT) ∧
  (∃ msg, set_sample_splitting (mkEngine 5 5 1 None UNFIT) smpls_gap
          = Raise (Exc ValueError msg)).
Proof.
  split.
  - apply (proj1 (set_sample_splitting_validates (mkEngine 5 5 1 None UNFIT) smpls_ok)).
    apply covers_all_spec. vm_compute. reflexivity.
  - apply (proj2 (set_sample_splitting_validates (mkEngine 5 5 1 None UNFIT) smpls_gap)).
    intros H%covers_all_spec. vm_compute in H. discriminate.
Defined.

(** ** Slicing a frame by validated labels *)

Section Slicing.
Context {V : Type}.
Implicit Types (self : DoubleMLData V) (df : DataFrame V).

Lemma matching_present df (c : string) : c ∈ columns df → matching df c ≠ [].
Proof.
  unfold columns, matching. intros Hc%list_elem_of_In%in_map_iff.
  destruct Hc as ([c' v] & Hfst & Hin%list_elem_of_In). simpl in Hfst. subst c'.
  intros E. assert (H : (c, v) ∈ filter (λ p : string * list V, p.1 = c) (df_cols df)).
  { by apply list_elem_of_filter. }
  rewrite E in H. by apply elem_of_nil in H.
Qed.

Lemma matching_columns df (c : string) (p : string * list V) :
  p ∈ matching df c → p.1 = c ∧ p ∈ df_cols df.
Proof. unfold matching. by intros ?%list_elem_of_filter. Qed.

Lemma loc_label_present df (c : string) :
  c ∈ columns df → ∃ s, loc_label df c = Ok s.
Proof.
  intros Hc%matching_present. unfold loc_label.
  destruct (matching df c) as [|[c1 v1] [|p2 r]]; [done| |]; by eexists.
Qed.

Lemma loc_cols_present df (labels : list string) :
  labels ⊆ columns df → ∃ cs, loc_cols df labels = Ok cs.
Proof.
  induction labels as [|c labels IH]; intros Hsub; [by eexists|].
  destruct IH as [cs Hcs]; [intros a Ha; apply Hsub; by right|].
  assert (Hc : matching df c ≠ []) by (apply matching_present, Hsub; left).
  simpl. destruct (matching df c) as [|p r]; [done|]. rewrite Hcs. by eexists.
Qed.

Lemma loc_list_present df (labels : list string) :
  labels ⊆ columns df → ∃ f, loc_list df labels = Ok f.
Proof.
  intros [cs Hcs]%loc_cols_present. unfold loc_list. rewrite Hcs. by eexists.
Qed.

Lemma _set_y_z_total self :
  roles_in_columns self → ∃ self', _set_y_z self = Ok self'.
Proof.
  intros (Hy & _ & _ & Hz). unfold _set_y_z.
  destruct (loc_label_present _ _ Hy) as [s ->]. simpl.
  unfold z_list in Hz. destruct (_z_cols self) as [zc|]; simpl in *.
  - destruct (loc_list_present _ _ Hz) as [f ->]. simpl. by eexists.
  - by eexists.
Qed.

Lemma _set_x_d_total self (t : string) :
  roles_in_columns self → t ∈ _d_cols self → ∃ self', _set_x_d self t = Ok self'.
Proof.
  intros (_ & Hd & Hx & _) Ht. unfold _set_x_d.
  rewrite bool_decide_eq_true_2 by done. simpl.
  assert (Hxd : ∃ xd_list,
    (if use_other_treat_as_covariate self
     then match list_remove t (_x_cols self ++ _d_cols self) with
          | Some l => Ok l
          | None => Raise (Exc ValueError "list.remove(x): x not in list")
          end
     else Ok (_x_cols self)) = Ok xd_list ∧ xd_list ⊆ all_variables self).
  { destruct (use_other_treat_as_covariate self); [|by eexists].
    destruct (list_remove_elem t (_x_cols self ++ _d_cols self)) as [l Hl].
    { apply elem_of_app. by right. }
    rewrite Hl. exists l. split; [done|]. intros c Hc.
    apply (list_remove_subseteq _ _ _ Hl), elem_of_app in Hc as [Hc|Hc]; auto. }
  destruct Hxd as (xd_list & -> & Hsub). simpl.
  destruct (loc_label_present _ _ (Hd _ Ht)) as [s ->]. simpl.
  destruct (loc_list_present _ _ Hsub) as [f ->]. simpl. by eexists.
Qed.

End Slicing.

(** ** What the setters accept, and what construction can end in *)

Section Acceptance.
Context {V : Type}.
Implicit Types (self : DoubleMLData V) (df : DataFrame V).

Lemma cols_value_str (name : string) (vars : list string) (s : string) :
  cols_value name vars (PyStr s) = cols_value name vars (PyList [PyStr s]).
Proof. done. Qed.

Lemma cols_value_Ok_iff (name : string) (vars : list string) (v : pyval)
    (l : list string) :
  cols_value name vars v = Ok l ↔
  l ⊆ vars ∧ (v = PyList (PyStr <$> l) ∨ ∃ s : string, v = PyStr s ∧ l = [s]).
Proof.
  split.
  - intros H. split; [by eapply cols_value_Ok|].
    assert (Hl : ∀ vs, cols_value name vars (PyList vs) = Ok l → vs = PyStr <$> l).
    { intros vs Hvs. unfold cols_value in Hvs.
      destruct (forallb hashable vs); [|discriminate].
      bind_inv Hvs. apply assert_Ok in Ha. injection Hvs as <-.
      symmetry. by destruct (issubset_labels _ _ Ha). }
    destruct v; try discriminate.
    + right. exists s. split; [done|]. rewrite cols_value_str in H.
      apply Hl in H. destruct l as [|s' [|? ?]]; try discriminate.
      by injection H as ->.
    + left. f_equal. by apply Hl.
  - intros [Hsub [->|(s & -> & ->)]].
    + by apply cols_value_strings.
    + rewrite cols_value_str. by apply (cols_value_strings name vars [s]).
Qed.

Lemma cols_value_error_class (name : string) (vars : list string) (v : pyval)
    (e : pyexc) :
  cols_value name vars v = Raise e →
  exc_type e = TypeError ∨ exc_type e = AssertionError.
Proof.
  assert (Hl : ∀ vs, cols_value name vars (PyList vs) = Raise e →
                     exc_type e = TypeError ∨ exc_type e = AssertionError).
  { intros vs. unfold cols_value. destruct (forallb hashable vs).
    - destruct (issubset vs vars); simpl; [discriminate|]. intros [= <-]. by right.
    - intros [= <-]. by left. }
  destruct v; try (intros [= <-]; by left).
  - rewrite cols_value_str. apply Hl.
  - apply Hl.
Qed.

Lemma y_col_value_error (vars : list string) (v : pyval) (e : pyexc) :
  y_col_value vars v = Raise e → e = Exc AssertionError "".
Proof.
  unfold y_col_value. destruct v; try by intros [= <-].
  destruct (bool_decide (s ∈ vars)); simpl; [discriminate | by intros [= <-]].
Qed.

Lemma z_cols_value_error_class (vars : list string) (v : pyval) (e : pyexc) :
  z_cols_value vars v = Raise e →
  exc_type e = TypeError ∨ exc_type e = AssertionError.
Proof.
  unfold z_cols_value. intros H.
  assert (Hc : cols_value "z_cols" vars v = Raise e).
  { destruct v; try discriminate;
      destruct (cols_value "z_cols" vars _) eqn:E; simpl in H; congruence. }
  by eapply cols_value_error_class.
Qed.

(** The covariates [__init__] passes to the setter of [x_cols]. *)
Lemma x_stage_default df (yc : string) (dc : list string) (zc : option (list string)) :
  cols_value "x_cols" (columns df) (PyList (PyStr <$> default_x_cols df yc dc zc))
  = Ok (default_x_cols df yc dc zc).
Proof.
  apply cols_value_strings. unfold default_x_cols.
  destruct zc; intros c Hc; apply list_elem_of_filter in Hc; tauto.
Qed.

(** Past the four setters only the choice of the first treatment can fail. *)
Lemma init_after_validation df (yv dv xv zv : pyval) (b : bool)
    (yc : string) (dc : list string) (zc : option (list string)) :
  y_col_value (columns df) yv = Ok yc →
  cols_value "d_cols" (columns df) dv = Ok dc →
  z_cols_value (columns df) zv = Ok zc →
  (xv = PyNone ∨ is_ok (cols_value "x_cols" (columns df) xv) = true) →
  match dc with
  | [] => __init__ df yv dv xv zv b = Raise (Exc IndexError "list index out of range")
  | _ :: _ => ∃ self, __init__ df yv dv xv zv b = Ok self
  end.
Proof.
  intros Hy Hd Hz Hx. unfold __init__. rewrite Hy, Hd, Hz. simpl.
  assert (Hxs : ∃ xc,
    match xv with
    | PyNone => cols_value "x_cols" (columns df)
                  (PyList (PyStr <$> default_x_cols df yc dc zc))
    | _ => cols_value "x_cols" (columns df) xv
    end = Ok xc ∧ xc ⊆ columns df).
  { destruct Hx as [->|Hx].
    - eexists. split; [apply x_stage_default|].
      eapply cols_value_Ok, x_stage_default.
    - destruct (cols_value "x_cols" (columns df) xv) as [xc|] eqn:E; [|done].
      exists xc. apply cols_value_Ok in E as Hsub.
      split; [|done]. by destruct xv. }
  destruct Hxs as (xc & -> & Hxc). simpl.
  assert (Hroles : roles_in_columns
            (mkData df yc dc xc zc b (Series []) None (Series []) (mkFrame 0 []))).
  { apply y_col_value_Ok in Hy as [_ Hy]. apply cols_value_Ok in Hd.
    apply z_cols_value_Ok in Hz. by repeat split. }
  destruct (_set_y_z_total _ Hroles) as [self1 H1]. rewrite H1. simpl.
  destruct (_set_y_z_fields _ _ H1) as (E1 & E2 & E3 & E4 & E5 & _). simpl in *.
  rewrite E3. destruct dc as [|t dc]; [done|].
  apply _set_x_d_total.
  - unfold roles_in_columns, all_variables, z_list in *. by rewrite E1, E2, E3, E4, E5.
  - rewrite E3. left.
Qed.

End Acceptance.

Section Construction.
Context {V : Type}.
Implicit Types (self : DoubleMLData V) (df : DataFrame V).

(** X1.  The setters of [x_cols] and [d_cols] accept exactly a list of names
    of columns, or one such name as a string, which they store as the
    one-element list. *)
Theorem role_setters_accept_exactly self (v : pyval) (l : list string) :
  ((∃ self', set_x_cols self v = Ok self' ∧ _x_cols self' = l) ↔
   l ⊆ all_variables self ∧
   (v = PyList (PyStr <$> l) ∨ ∃ s : string, v = PyStr s ∧ l = [s])) ∧
  ((∃ self', set_d_cols self v = Ok self' ∧ _d_cols self' = l) ↔
   l ⊆ all_variables self ∧
   (v = PyList (PyStr <$> l) ∨ ∃ s : string, v = PyStr s ∧ l = [s])).
Proof.
  split; rewrite <- cols_value_Ok_iff.
  - unfold set_x_cols. split.
    + intros (self' & H & <-). bind_inv H. by injection H as <-.
    + intros ->. by eexists.
  - unfold set_d_cols. split.
    + intros (self' & H & <-). bind_inv H. by injection H as <-.
    + intros ->. by eexists.
Qed.

(** X2.  Construction succeeds exactly when [y_col], [d_cols] and [z_cols]
    pass their setters, [x_cols] is [None] or passes its setter, and at least
    one treatment is named: once the roles are validated, slicing the frame
    cannot fail. *)
Theorem init_succeeds_exactly df (yv dv xv zv : pyval) (b : bool) :
  is_ok (__init__ df yv dv xv zv b) = true ↔
  is_ok (y_col_value (columns df) yv) = true ∧
  (∃ dc, cols_value "d_cols" (columns df) dv = Ok dc ∧ dc ≠ []) ∧
  is_ok (z_cols_value (columns df) zv) = true ∧
  (xv = PyNone ∨ is_ok (cols_value "x_cols" (columns df) xv) = true).
Proof.
  split.
  - destruct (__init__ df yv dv xv zv b) as [self|] eqn:H; [intros _|done].
    destruct (init_inv _ _ _ _ _ _ _ H)
      as (yc & dc & zc & xc & t & self1 & Hy & Hd & Hz & Hx & _ & Ht & _).
    rewrite Hy, Hz. repeat split; try done.
    + exists dc. split; [done|]. by destruct dc.
    + destruct xv; try (right; by rewrite Hx). by left.
  - intros (Hy & (dc & Hd & Hne) & Hz & Hx).
    destruct (y_col_value (columns df) yv) as [yc|] eqn:Ey; [|done].
    destruct (z_cols_value (columns df) zv) as [zc|] eqn:Ez; [|done].
    pose proof (init_after_validation df yv dv xv zv b yc dc zc Ey Hd Ez Hx) as H.
    destruct dc; [done|]. by destruct H as [self ->].
Qed.

(** X3.  Whatever the arguments, construction ends in an instance or in a
    [TypeError], [AssertionError] or [IndexError]: a [KeyError] from slicing
    the frame, or a [ValueError] from [list.remove], cannot occur. *)
Theorem init_raises_only_validation_errors df (yv dv xv zv : pyval) (b : bool)
    (e : pyexc) :
  __init__ df yv dv xv zv b = Raise e → validation_error (exc_type e) = true.
Proof.
  intros H.
  destruct (y_col_value (columns df) yv) as [yc|ey] eqn:Ey.
  2:{ unfold __init__ in H. rewrite Ey in H. injection H as <-.
      by rewrite (y_col_value_error _ _ _ Ey). }
  destruct (cols_value "d_cols" (columns df) dv) as [dc|ed] eqn:Ed.
  2:{ unfold __init__ in H. rewrite Ey, Ed in H. injection H as <-.
      by destruct (cols_value_error_class _ _ _ _ Ed) as [-> | ->]. }
  destruct (z_cols_value (columns df) zv) as [zc|ez] eqn:Ez.
  2:{ unfold __init__ in H. rewrite Ey, Ed, Ez in H. injection H as <-.
      by destruct (z_cols_value_error_class _ _ _ Ez) as [-> | ->]. }
  assert (Hnone : xv = PyNone ∨ xv ≠ PyNone) by (destruct xv; (by left) || (by right)).
  destruct Hnone as [Hn|Hn].
  - pose proof (init_after_validation df yv dv xv zv b yc dc zc Ey Ed Ez (or_introl Hn)) as Hi.
    destruct dc; [by rewrite Hi in H; injection H as <- | destruct Hi; congruence].
  - destruct (cols_value "x_cols" (columns df) xv) as [xc|ex] eqn:Ex.
    + assert (Hx : xv = PyNone ∨ is_ok (cols_value "x_cols" (columns df) xv) = true)
        by (right; by rewrite Ex).
      pose proof (init_after_validation df yv dv xv zv b yc dc zc Ey Ed Ez Hx) as Hi.
      destruct dc; [by rewrite Hi in H; injection H as <- | destruct Hi; congruence].
    + unfold __init__ in H. rewrite Ey, Ed, Ez in H. simpl in H.
      assert (He : e = ex) by (destruct xv; try done; rewrite Ex in H; simpl in H; congruence).
      subst. by destruct (cols_value_error_class _ _ _ _ Ex) as [-> | ->].
Qed.

(** X4.  An empty list of treatments passes the setter of [d_cols] and makes
    construction end in [IndexError] at [d_cols[0]], when the other roles are
    valid. *)
Theorem init_without_treatment df (yv xv zv : pyval) (b : bool) :
  is_ok (y_col_value (columns df) yv) = true →
  is_ok (z_cols_value (columns df) zv) = true →
  xv = PyNone ∨ is_ok (cols_value "x_cols" (columns df) xv) = true →
  cols_value "d_cols" (columns df) (PyList []) = Ok [] ∧
  __init__ df yv (PyList []) xv zv b = Raise (Exc IndexError "list index out of range").
Proof.
  intros Hy Hz Hx. split; [done|].
  destruct (y_col_value (columns df) yv) as [yc|] eqn:Ey; [|done].
  destruct (z_cols_value (columns df) zv) as [zc|] eqn:Ez; [|done].
  exact (init_after_validation df yv (PyList []) xv zv b yc [] zc Ey eq_refl Ez Hx).
Qed.

Lemma reachable_roles self : reachable self → roles_in_columns self.
Proof.
  induction 1 as [df yv dv xv zv b self H
                 | self v self' _ IH H | self v self' _ IH H
                 | self v self' _ IH H | self v self' _ IH H
                 | self self' _ IH H | self t self' _ IH H].
  - by eapply init_roles_in_columns.
  - by eapply set_y_col_roles.
  - by eapply set_d_cols_roles.
  - by eapply set_x_cols_roles.
  - by eapply set_z_cols_roles.
  - apply _set_y_z_fields in H as (E1 & E2 & E3 & E4 & E5 & _).
    unfold roles_in_columns, all_variables, z_list in *. by rewrite E1, E2, E3, E4, E5.
  - apply _set_x_d_fields in H as (E1 & E2 & E3 & E4 & E5 & _).
    unfold roles_in_columns, all_variables, z_list in *. by rewrite E1, E2, E3, E4, E5.
Qed.

(** X5.  On an instance obtained from [__init__] by any assignments to the
    roles and calls of the slicers, [_set_y_z] returns, and [_set_x_d(t)]
    returns exactly when [t] is one of [d_cols]; otherwise it fails its
    assertion. *)
Theorem slicers_return_on_reachable self (t : string) :
  reachable self →
  (∃ self', _set_y_z self = Ok self') ∧
  (t ∈ _d_cols self → ∃ self', _set_x_d self t = Ok self') ∧
  (t ∉ _d_cols self → _set_x_d self t = Raise (Exc AssertionError "")).
Proof.
  intros Hroles%reachable_roles. split; [by apply _set_y_z_total|]. split.
  - by apply _set_x_d_total.
  - intros Ht. unfold _set_x_d. by rewrite bool_decide_eq_false_2.
Qed.

(** X6.  Selecting a treatment overrides the selection before it: the result
    of [_set_x_d(t2)] is the same after any [_set_x_d(t1)], and selecting the
    same treatment again changes nothing. *)
Theorem selection_overrides self (t1 t2 : string) self1 :
  _set_x_d self t1 = Ok self1 →
  _set_x_d self1 t2 = _set_x_d self t2 ∧ _set_x_d self1 t1 = Ok self1.
Proof.
  intros H.
  assert (Hov : ∀ t, _set_x_d self1 t = _set_x_d self t).
  { intros t. unfold _set_x_d in *. bind_inv H. by injection H as <-. }
  split; [apply Hov|]. by rewrite Hov.
Qed.

End Construction.

(** ** The slices of instances in use *)

Section SlicesInUse.
Context {V : Type}.
Implicit Types (self : DoubleMLData V) (df : DataFrame V).

Lemma list_remove_length (t : string) (l l' : list string) :
  list_remove t l = Some l' → length l = S (length l').
Proof.
  revert l'. induction l as [|a l IH]; simpl; [discriminate|]. intros l'.
  destruct (decide (a = t)); [by intros [= <-]|].
  destruct (list_remove t l) as [r|]; [|discriminate]. intros [= <-].
  simpl. by rewrite (IH r).
Qed.

(** X7.  On a frame with unique labels the covariate slice has one column per
    entry of [x_cols], and with [use_other_treat_as_covariate] one more for
    every treatment but the selected one. *)
Theorem covariate_slice_width self0 (t : string) self :
  roles_in_columns self0 → NoDup (all_variables self0) →
  _set_x_d self0 t = Ok self →
  n_columns (x self) =
    Some (if use_other_treat_as_covariate self
          then length (_x_cols self) + n_treat self - 1
          else length (_x_cols self)).
Proof.
  intros (_ & Hd & Hx & _) Hnd H.
  destruct (_set_x_d_fields _ _ _ H) as (_ & _ & E3 & E4 & _ & E6 & _ & _ & Ht).
  destruct (_set_x_d_inv _ _ _ H) as (xd_list & Hxd & _ & Hloc).
  assert (Hsub : xd_list ⊆ all_variables self0).
  { destruct (use_other_treat_as_covariate self0); [|by subst].
    intros c Hc. apply (list_remove_subseteq _ _ _ Hxd), elem_of_app in Hc as [Hc|Hc]; auto. }
  destruct (loc_list_unique _ _ Hnd Hsub) as (f & Hf & Hcols & _).
  rewrite Hloc in Hf. injection Hf as <-.
  unfold n_columns, x, frame_values, n_treat. rewrite length_map, E3, E4, E6.
  f_equal. rewrite <- (length_map fst). fold (columns (_X self)). rewrite Hcols.
  destruct (use_other_treat_as_covariate self0); [|by subst].
  apply list_remove_length in Hxd. rewrite length_app in Hxd. lia.
Qed.

Lemma loc_label_rows df (c : string) (s : selection V) :
  wf_frame df → loc_label df c = Ok s → shape0 (values s) = df_rows df.
Proof.
  intros Hwf. unfold loc_label.
  destruct (matching df c) as [|[c1 v1] [|p r]] eqn:E; [discriminate| |].
  - intros [= <-]. simpl.
    assert (Hin : (c1, v1) ∈ matching df c) by (rewrite E; left).
    apply matching_columns in Hin as [_ Hin].
    unfold wf_frame in Hwf. rewrite Forall_forall in Hwf. by apply Hwf in Hin.
  - by intros [= <-].
Qed.

Lemma loc_list_rows df (labels : list string) (f : DataFrame V) :
  loc_list df labels = Ok f → df_rows f = df_rows df.
Proof. unfold loc_list. intros H. bind_inv H. by injection H as <-. Qed.

Lemma _set_y_z_aligned self self' :
  wf_frame (data self) → _set_y_z self = Ok self' →
  data self' = data self ∧ _d self' = _d self ∧ _X self' = _X self ∧
  shape0 (values (_y self')) = df_rows (data self) ∧
  (∀ f, _z self' = Some f → df_rows f = df_rows (data self)).
Proof.
  intros Hwf H. unfold _set_y_z in H. bind_inv H. injection H as <-. simpl.
  repeat split; try done.
  - by eapply loc_label_rows.
  - intros f ->. destruct (_z_cols self); [|done].
    bind_inv Ha0. injection Ha0 as <-. by eapply loc_list_rows.
Qed.

Lemma _set_x_d_aligned self (t : string) self' :
  wf_frame (data self) → _set_x_d self t = Ok self' →
  shape0 (values (_d self')) = df_rows (data self) ∧
  df_rows (_X self') = df_rows (data self).
Proof.
  intros Hwf H. destruct (_set_x_d_inv _ _ _ H) as (xd_list & _ & Hlab & Hloc).
  split; [by eapply loc_label_rows | by eapply loc_list_rows].
Qed.

Lemma reachable_aligned self :
  reachable self → wf_frame (data self) → slices_aligned self.
Proof.
  induction 1 as [df yv dv xv zv b self H
                 | self v self' _ IH H | self v self' _ IH H
                 | self v self' _ IH H | self v self' _ IH H
                 | self self' _ IH H | self t self' _ IH H]; intros Hwf.
  - destruct (init_inv _ _ _ _ _ _ _ H)
      as (yc & dc & zc & xc & t & self1 & _ & _ & _ & _ & H1 & _ & H2).
    pose proof (init_fields _ _ _ _ _ _ _ H) as (Hdf & _). rewrite Hdf in Hwf.
    pose proof (λ W, _set_y_z_aligned _ _ W H1) as HA. simpl in HA.
    destruct (HA Hwf) as (E1 & _ & _ & Hy & Hz). clear HA.
    rewrite <- E1 in Hwf.
    destruct (_set_x_d_aligned _ _ _ Hwf H2) as (Hd & HX).
    apply _set_x_d_fields in H2 as (F1 & _ & _ & _ & _ & _ & F7 & F8 & _).
    rewrite E1 in Hd, HX.
    unfold slices_aligned. rewrite F1, F7, F8, E1. by repeat split.
  - unfold set_y_col in H. bind_inv H. injection H as <-. by apply IH.
  - unfold set_d_cols in H. bind_inv H. injection H as <-. by apply IH.
  - unfold set_x_cols in H. bind_inv H. injection H as <-. by apply IH.
  - unfold set_z_cols in H. bind_inv H. injection H as <-. by apply IH.
  - pose proof (_set_y_z_fields _ _ H) as (E1 & _). rewrite E1 in Hwf.
    destruct (IH Hwf) as (_ & Hd & HX & _).
    destruct (_set_y_z_aligned _ _ Hwf H) as (_ & Ed & EX & Hy & Hz).
    unfold slices_aligned. rewrite E1, Ed, EX. by repeat split.
  - pose proof (_set_x_d_fields _ _ _ H) as (E1 & _ & _ & _ & _ & _ & E7 & E8 & _).
    rewrite E1 in Hwf. destruct (IH Hwf) as (Hy & _ & _ & Hz).
    destruct (_set_x_d_aligned _ _ _ Hwf H) as (Hd & HX).
    unfold slices_aligned. rewrite E1, E7, E8. by repeat split.
Qed.

(** X8.  Over a frame whose columns all have the frame's number of rows, the
    arrays given by [x], [y], [d] and [z] have [n_obs] rows, on every
    instance obtained from [__init__] by assignments to the roles and calls
    of the slicers. *)
Theorem accessors_share_rows self :
  reachable self → wf_frame (data self) →
  shape0 (x self) = n_obs self ∧ shape0 (y self) = n_obs self ∧
  shape0 (d self) = n_obs self ∧
  (∀ a, z self = Ok (Some a) → shape0 a = n_obs self).
Proof.
  intros Hr Hwf. destruct (reachable_aligned self Hr Hwf) as (Hy & Hd & HX & Hz).
  unfold x, y, d, z, n_obs. repeat split; try done.
  intros a. destruct (_z_cols self); [|done].
  destruct (_z self) as [f|]; [|done]. intros [= <-]. by apply Hz.
Qed.

(** X9.  With [x_cols=None] the covariates are columns of the frame in frame
    order, none of them a treatment or an instrument, and they include every
    column that is neither treatment nor instrument nor one of the
    characters of the name of the outcome. *)
Theorem default_covariates df (yv dv zv : pyval) (b : bool) self :
  __init__ df yv dv PyNone zv b = Ok self →
  sublist (_x_cols self) (columns df) ∧
  (_x_cols self ## _d_cols self) ∧
  (_x_cols self ## z_list self) ∧
  (∀ c : string, c ∈ columns df → c ∉ chars (_y_col self) →
     c ∉ _d_cols self → c ∉ z_list self → c ∈ _x_cols self).
Proof.
  intros (_ & _ & _ & _ & _ & Hx)%init_fields. rewrite Hx. unfold z_list.
  split; [|split; [|split]].
  - unfold default_x_cols. destruct (_z_cols self); apply sublist_filter.
  - intros c Hc%default_x_cols_spec. tauto.
  - intros c Hc%default_x_cols_spec. tauto.
  - intros c ? ? ? ?. by apply default_x_cols_spec.
Qed.

(** X10.  The setters store the role and nothing else: after an assignment to
    [x_cols] or [d_cols] the role is the list assigned (a string as the list
    of that string) and the other role is as before, the accessors still give
    the arrays sliced before, and the next [_set_x_d(t)] slices by the roles
    as assigned. *)
Theorem assignment_waits_for_selection self (v : pyval) self1 :
  roles_in_columns self → NoDup (all_variables self) →
  set_x_cols self v = Ok self1 ∨ set_d_cols self v = Ok self1 →
  (∃ l : list string,
     (v = PyList (PyStr <$> l) ∨ ∃ s : string, v = PyStr s ∧ l = [s]) ∧
     (set_x_cols self v = Ok self1 →
        _x_cols self1 = l ∧ _d_cols self1 = _d_cols self) ∧
     (set_d_cols self v = Ok self1 →
        _d_cols self1 = l ∧ _x_cols self1 = _x_cols self)) ∧
  (x self1 = x self ∧ y self1 = y self ∧ d self1 = d self ∧ z self = z self1) ∧
  (∀ (t : string) self2, _set_x_d self1 t = Ok self2 →
     _x_cols self2 = _x_cols self1 ∧ _d_cols self2 = _d_cols self1 ∧
     slices_as_computed self2 t).
Proof.
  intros Hroles Hnd H.
  assert (Hstored : ∃ l : list string,
     (v = PyList (PyStr <$> l) ∨ ∃ s : string, v = PyStr s ∧ l = [s]) ∧
     (set_x_cols self v = Ok self1 →
        _x_cols self1 = l ∧ _d_cols self1 = _d_cols self) ∧
     (set_d_cols self v = Ok self1 →
        _d_cols self1 = l ∧ _x_cols self1 = _x_cols self)).
  { assert (Hl : ∃ l name, cols_value name (all_variables self) v = Ok l).
    { destruct H as [H|H]; [unfold set_x_cols in H | unfold set_d_cols in H];
        bind_inv H; by do 2 eexists. }
    destruct Hl as (l & name & Hl). exists l.
    split; [by apply cols_value_Ok_iff in Hl as [_ Hl]|].
    assert (Hsame : ∀ name' l', cols_value name' (all_variables self) v = Ok l' → l' = l).
    { intros name' l' Hl'. apply cols_value_Ok_iff in Hl as [_ Hl].
      apply cols_value_Ok_iff in Hl' as [_ Hl'].
      destruct Hl as [->|(s & -> & ->)], Hl' as [Hl'|(s' & Hs' & ->)]; try discriminate.
      - injection Hl' as Hl'. apply (f_equal (omap label_of)) in Hl'.
        by rewrite !omap_label_of_strings in Hl'.
      - by injection Hs' as <-. }
    split; intros Hs.
    - unfold set_x_cols in Hs. bind_inv Hs. injection Hs as <-. simpl.
      split; [by eapply Hsame | done].
    - unfold set_d_cols in Hs. bind_inv Hs. injection Hs as <-. simpl.
      split; [by eapply Hsame | done]. }
  split; [exact Hstored|].
  assert (H1 : roles_in_columns self1 ∧ data self1 = data self ∧
               _X self1 = _X self ∧ _y self1 = _y self ∧ _d self1 = _d self ∧
               _z self1 = _z self ∧ (_z_cols self1 = _z_cols self)).
  { destruct H as [H|H].
    - split; [by eapply set_x_cols_roles|].
      unfold set_x_cols in H. bind_inv H. by injection H as <-.
    - split; [by eapply set_d_cols_roles|].
      unfold set_d_cols in H. bind_inv H. by injection H as <-. }
  destruct H1 as (Hroles1 & Edata & EX & Ey & Ed & Ez & Ezc).
  split.
  - unfold x, y, d, z. by rewrite EX, Ey, Ed, Ez, Ezc.
  - intros t self2 H2.
    destruct (_set_x_d_fields _ _ _ H2) as (_ & _ & E3 & E4 & _).
    split; [done|]. split; [done|].
    apply (_set_x_d_slices self1); try done. unfold all_variables. by rewrite Edata.
Qed.


End SlicesInUse.

(** ** Instances made from arrays *)

Section FromArraysInUse.
Context {V : Type}.
Implicit Types (self : DoubleMLData V) (df : DataFrame V).

Lemma filter_all {A : Type} (P : A → Prop) `{!∀ a, Decision (P a)} (l : list A) :
  (∀ a, a ∈ l → P a) → filter P l = l.
Proof.
  induction l as [|a l IH]; [done|]. intros Hall.
  rewrite filter_cons_True by (apply Hall; left).
  rewrite IH; [done|]. intros a' Ha'. apply Hall. by right.
Qed.

Lemma filter_none {A : Type} (P : A → Prop) `{!∀ a, Decision (P a)} (l : list A) :
  (∀ a, a ∈ l → ¬ P a) → filter P l = [].
Proof.
  induction l as [|a l IH]; [done|]. intros Hall.
  rewrite filter_cons_False by (apply Hall; left).
  apply IH. intros a' Ha'. apply Hall. by right.
Qed.

Lemma filter_ne_lookup (l : list string) (i : nat) (t : string) :
  NoDup l → l !! i = Some t → filter (λ c, c ≠ t) l = delete i l.
Proof.
  revert i. induction l as [|a l IH]; intros i; [done|].
  intros [Ha Hnd]%NoDup_cons Hi. destruct i as [|i]; simpl in *.
  - injection Hi as ->. rewrite filter_cons_False by (intros H; by apply H).
    by apply filter_ne_absent.
  - rewrite filter_cons_True.
    + by rewrite (IH i).
    + intros ->. apply Ha. by eapply list_elem_of_lookup_2.
Qed.

Lemma zip_delete_subseteq {A B : Type} (l : list A) (k : list B) (i : nat) :
  zip (delete i l) (delete i k) ⊆ zip l k.
Proof.
  revert k i. induction l as [|a l IH]; intros k i.
  - destruct i; simpl; apply list_subseteq_nil.
  - destruct k as [|b k].
    + destruct i; simpl.
      * destruct l; apply list_subseteq_nil.
      * apply list_subseteq_nil.
    + destruct i as [|i]; simpl.
      * intros p Hp. by right.
      * intros p [->|Hp]%elem_of_cons; [left | right; by apply (IH k i)].
Qed.

Lemma column_members df (labels : list string) (vs : list (list V)) :
  NoDup (columns df) → length labels = length vs →
  zip labels vs ⊆ df_cols df →
  submatrix df labels = Some (Arr2 (df_rows df) vs).
Proof.
  intros Hnd Hlen Hsub. unfold submatrix.
  assert (H : mapM (column df) labels = Some vs).
  { apply mapM_Some, zip_Forall2; [done|].
    intros c v Hcv. apply column_member; [done | by apply Hsub]. }
  by rewrite H.
Qed.

Lemma stacked_frame_roles (n : nat) (xcols : list (list V)) (yv : list V)
    (dcols : list (list V)) (zcols : option (list (list V))) :
  "y" ∈ columns (stacked_frame n xcols yv dcols zcols) ∧
  numbered "X" (length xcols) ⊆ columns (stacked_frame n xcols yv dcols zcols) ∧
  block_names "d" (length dcols) ⊆ columns (stacked_frame n xcols yv dcols zcols) ∧
  default [] ((λ zc : list (list V), block_names "z" (length zc)) <$> zcols)
    ⊆ columns (stacked_frame n xcols yv dcols zcols).
Proof.
  rewrite stacked_frame_columns. repeat split; try set_solver.
  destruct zcols; simpl; set_solver.
Qed.

Lemma z_argument (zcols : option (list (list V))) :
  match zcols with
  | Some zc => PyList (PyStr <$> block_names "z" (length zc))
  | None => PyNone
  end
  = match (λ zc : list (list V), block_names "z" (length zc)) <$> zcols with
    | Some zc => PyList (PyStr <$> zc)
    | None => PyNone
    end.
Proof. by destruct zcols. Qed.

Lemma z_stage_stacked (n : nat) (xcols : list (list V)) (yv : list V)
    (dcols : list (list V)) (zcols : option (list (list V))) :
  z_cols_value (columns (stacked_frame n xcols yv dcols zcols))
    (match zcols with
     | Some zc => PyList (PyStr <$> block_names "z" (length zc))
     | None => PyNone
     end)
  = Ok ((λ zc : list (list V), block_names "z" (length zc)) <$> zcols).
Proof.
  destruct (stacked_frame_roles n xcols yv dcols zcols) as (_ & _ & _ & Hz).
  destruct zcols as [zc|]; [|done]. unfold z_cols_value. simpl in *.
  by rewrite (cols_value_strings _ _ _ Hz).
Qed.

(** The roles of an instance made by [from_arrays]. *)
Lemma from_arrays_fields (n : nat) (xcols : list (list V)) (yv : list V)
    (d_arr : ndarray V) (zcols : option (list (list V))) (b : bool) self :
  length yv = n → shape0 d_arr = n →
  from_arrays (Arr2 n xcols) (Arr1 yv) d_arr (Arr2 n <$> zcols) b = Ok self →
  __init__ (stacked_frame n xcols yv (as_columns d_arr) zcols) (PyStr "y")
    (PyList (PyStr <$> block_names "d" (length (as_columns d_arr))))
    (PyList (PyStr <$> numbered "X" (length xcols)))
    (match zcols with
     | Some zc => PyList (PyStr <$> block_names "z" (length zc))
     | None => PyNone
     end) b = Ok self ∧
  data self = stacked_frame n xcols yv (as_columns d_arr) zcols ∧
  use_other_treat_as_covariate self = b ∧
  _y_col self = "y" ∧
  _d_cols self = block_names "d" (length (as_columns d_arr)) ∧
  _x_cols self = numbered "X" (length xcols) ∧
  _z_cols self = (λ zc : list (list V), block_names "z" (length zc)) <$> zcols.
Proof.
  intros <- Hd H.
  rewrite (from_arrays_init (Arr2 (length yv) xcols)) in H by done.
  cbn [as_columns] in H. split; [done|].
  destruct (stacked_frame_roles (length yv) xcols yv (as_columns d_arr) zcols)
    as (Hy_in & Hx_in & Hd_in & Hz_in).
  destruct (init_fields _ _ _ _ _ _ _ H) as (Edf & Eb & Ey & Ed & Ez & Ex).
  apply y_col_value_Ok in Ey as [[= Ey] _].
  rewrite (cols_value_strings _ _ _ Hd_in) in Ed. injection Ed as Ed.
  rewrite (cols_value_strings _ _ _ Hx_in) in Ex. injection Ex as Ex.
  rewrite z_stage_stacked in Ez. injection Ez as Ez.
  by repeat split.
Qed.

(** X12.  An instance made by [from_arrays] has as many treatments as [d]
    has columns and as many observations as the arrays have rows; its
    variables are the generated names in the order covariates, outcome,
    treatments, instruments; [n_instr] is the number of columns of [z] when
    [z] is given. *)
Theorem from_arrays_counts (n : nat) (xcols : list (list V)) (yv : list V)
    (d_arr : ndarray V) (zcols : option (list (list V))) (b : bool) self :
  length yv = n → shape0 d_arr = n →
  from_arrays (Arr2 n xcols) (Arr1 yv) d_arr (Arr2 n <$> zcols) b = Ok self →
  n_obs self = n ∧
  n_treat self = length (as_columns d_arr) ∧
  all_variables self =
    numbered "X" (length xcols) ++ ["y"] ++
    block_names "d" (length (as_columns d_arr)) ++
    match zcols with Some zc => block_names "z" (length zc) | None => [] end ∧
  length (all_variables self) =
    (length xcols + 1 + length (as_columns d_arr) +
     length (default [] zcols))%nat ∧
  (∀ zc, zcols = Some zc → n_instr self = Ok (length zc)).
Proof.
  intros Hy Hd H.
  destruct (from_arrays_fields _ _ _ _ _ _ _ Hy Hd H) as (_ & Edf & _ & _ & Ed & _ & Ez).
  unfold n_obs, n_treat, all_variables, n_instr. rewrite Edf, Ed, Ez.
  rewrite stacked_frame_columns, block_names_length.
  split; [done|]. split; [done|]. split; [done|]. split.
  - rewrite !length_app, numbered_length, block_names_length. simpl.
    destruct zcols; simpl; rewrite ?block_names_length; lia.
  - intros zc ->. simpl. by rewrite block_names_length.
Qed.

(** X13.  [from_arrays] reads [z.shape[1]] of [z] as it is passed: a
    one-dimensional [z] ends in [IndexError], whatever the other arrays (of
    one or two dimensions) are. *)
Theorem from_arrays_vector_z (X_arr y_arr d_arr : ndarray V) (v : list V) (b : bool) :
  from_arrays X_arr y_arr d_arr (Some (Arr1 v)) b =
  Raise (Exc IndexError "tuple index out of range").
Proof. unfold from_arrays. by rewrite !assure_2d_array_eq. Qed.

(** X14.  Without [z], arrays that differ in the number of rows end in
    [ValueError] when they are stacked. *)
Theorem from_arrays_rows_differ (X_arr y_arr d_arr : ndarray V) (b : bool) :
  shape0 y_arr ≠ shape0 X_arr ∨ shape0 d_arr ≠ shape0 X_arr →
  from_arrays X_arr y_arr d_arr None b =
  Raise (Exc ValueError
           "all the input array dimensions except for the concatenation axis must match exactly").
Proof.
  intros H. unfold from_arrays. rewrite !assure_2d_array_eq.
  cbn [mbind result_bind shape1]. unfold column_stack. cbn [forallb shape0].
  rewrite Nat.eqb_refl.
  assert (Hf : (shape0 y_arr =? shape0 X_arr)%nat &&
               ((shape0 d_arr =? shape0 X_arr)%nat && true) = false).
  { destruct H as [H|H].
    - by apply Nat.eqb_neq in H as ->.
    - apply Nat.eqb_neq in H as ->. by rewrite andb_false_r. }
  cbn [andb]. by rewrite Hf.
Qed.

(** X15.  A treatment matrix without columns passes [from_arrays] up to the
    choice of the first treatment, which ends in [IndexError]. *)
Theorem from_arrays_no_treatment (n : nat) (xcols : list (list V)) (yv : list V)
    (zcols : option (list (list V))) (b : bool) :
  length yv = n →
  from_arrays (Arr2 n xcols) (Arr1 yv) (Arr2 n []) (Arr2 n <$> zcols) b =
  Raise (Exc IndexError "list index out of range").
Proof.
  intros <-. rewrite (from_arrays_init (Arr2 (length yv) xcols)) by done.
  cbn [as_columns length].
  destruct (stacked_frame_roles (length yv) xcols yv [] zcols)
    as (Hy_in & Hx_in & Hd_in & Hz_in).
  apply (init_after_validation _ _ _ _ _ _ "y" []
           ((λ zc : list (list V), block_names "z" (length zc)) <$> zcols)).
  - by apply y_col_value_Ok.
  - done.
  - apply z_stage_stacked.
  - right. by rewrite (cols_value_strings _ _ _ Hx_in).
Qed.

Lemma default_x_cols_stacked (n : nat) (xcols : list (list V)) (yv : list V)
    (dcols : list (list V)) (zcols : option (list (list V))) :
  default_x_cols (stacked_frame n xcols yv dcols zcols) "y"
    (block_names "d" (length dcols))
    ((λ zc : list (list V), block_names "z" (length zc)) <$> zcols)
  = numbered "X" (length xcols).
Proof.
  assert (HX : ∀ (S : gset string),
            (∀ s, s ∈ S → first_char s ≠ Some "X"%char) →
            filter (λ col, col ∉ S) (numbered "X" (length xcols))
            = numbered "X" (length xcols)).
  { intros S HS. apply filter_all. intros s Hs%numbered_first_char Hin.
    by apply HS in Hin. }
  unfold default_x_cols. rewrite stacked_frame_columns.
  destruct zcols as [zc|]; cbn [fmap option_fmap option_map chars].
  - rewrite !filter_app, HX.
    + rewrite !filter_none, !app_nil_r; [done|..]; intros s Hs Hn; apply Hn; set_solver.
    + intros s [[Hs|Hs]%elem_of_union|Hs]%elem_of_union;
        apply elem_of_list_to_set in Hs.
      * by apply list_elem_of_singleton in Hs as ->.
      * by rewrite (block_names_first_char _ _ _ Hs).
      * by rewrite (block_names_first_char _ _ _ Hs).
  - rewrite !filter_app, HX.
    + rewrite !filter_none, !app_nil_r; [done|..]; intros s Hs Hn; apply Hn; set_solver.
    + intros s [Hs|Hs]%elem_of_union; apply elem_of_list_to_set in Hs.
      * by apply list_elem_of_singleton in Hs as ->.
      * by rewrite (block_names_first_char _ _ _ Hs).
Qed.

(** X16.  Both ways of construction agree: [__init__] on the frame that
    [from_arrays] builds, with the generated names of outcome, treatments and
    instruments and with [x_cols=None], ends as [from_arrays] does, in the
    same instance or the same exception. *)
Theorem frame_route_agrees (n : nat) (xcols : list (list V)) (yv : list V)
    (d_arr : ndarray V) (zcols : option (list (list V))) (b : bool) :
  length yv = n → shape0 d_arr = n →
  __init__ (stacked_frame n xcols yv (as_columns d_arr) zcols) (PyStr "y")
    (PyList (PyStr <$> block_names "d" (length (as_columns d_arr)))) PyNone
    (match zcols with
     | Some zc => PyList (PyStr <$> block_names "z" (length zc))
     | None => PyNone
     end) b
  = from_arrays (Arr2 n xcols) (Arr1 yv) d_arr (Arr2 n <$> zcols) b.
Proof.
  intros <- Hd. rewrite (from_arrays_init (Arr2 (length yv) xcols)) by done.
  cbn [as_columns].
  destruct (stacked_frame_roles (length yv) xcols yv (as_columns d_arr) zcols)
    as (Hy_in & Hx_in & Hd_in & Hz_in).
  unfold __init__.
  rewrite (proj2 (y_col_value_Ok _ (PyStr "y") "y")) by done.
  cbn [mbind result_bind].
  rewrite (cols_value_strings _ _ _ Hd_in). cbn [mbind result_bind].
  rewrite z_stage_stacked. cbn [mbind result_bind].
  by rewrite default_x_cols_stacked.
Qed.

(** Selecting the treatment in column [i] of [d]. *)
Lemma from_arrays_select (n : nat) (xcols : list (list V)) (yv : list V)
    (d_arr : ndarray V) (zcols : option (list (list V))) (b : bool) self
    (i : nat) (t : string) (v : list V) :
  length yv = n → shape0 d_arr = n →
  from_arrays (Arr2 n xcols) (Arr1 yv) d_arr (Arr2 n <$> zcols) b = Ok self →
  block_names "d" (length (as_columns d_arr)) !! i = Some t →
  as_columns d_arr !! i = Some v →
  ∃ self', _set_x_d self t = Ok self' ∧
    d self' = Arr1 v ∧
    x self' = Arr2 n (if b then xcols ++ delete i (as_columns d_arr) else xcols).
Proof.
  intros Hy Hd H Ht Hv.
  destruct (from_arrays_fields _ _ _ _ _ _ _ Hy Hd H) as (Hinit & Edf & Eb & _ & Ed & Ex & _).
  pose proof (init_roles_in_columns _ _ _ _ _ _ _ Hinit) as Hroles.
  set (dcols := as_columns d_arr) in *.
  set (df := stacked_frame n xcols yv dcols zcols) in *.
  pose proof (stacked_frame_NoDup n xcols yv dcols zcols) as Hnd. fold df in Hnd.
  assert (Hnd' : NoDup (all_variables self)) by (unfold all_variables; by rewrite Edf).
  assert (Ht_in : t ∈ _d_cols self) by (rewrite Ed; by eapply list_elem_of_lookup_2).
  destruct (_set_x_d_total self t Hroles Ht_in) as [self' Hset].
  exists self'. split; [done|].
  destruct (_set_x_d_fields _ _ _ Hset) as (F1 & _ & F3 & F4 & _ & F6 & _).
  destruct (_set_x_d_slices _ _ _ Hroles Hnd' Hset) as (Hx1 & Hx0 & Hdsl).
  rewrite F1, F3, F4, F6, Edf, Ed, Ex, Eb in *.
  pose proof (stacked_frame_cols n xcols yv dcols zcols) as Hcols. fold df in Hcols.
  assert (Hdf_rows : df_rows df = n) by done.
  assert (Hzip_d : zip (block_names "d" (length dcols)) dcols ⊆ df_cols df).
  { rewrite Hcols. intros p Hp. apply elem_of_app. right. right.
    apply elem_of_app. by left. }
  assert (Hzip_x : zip (numbered "X" (length xcols)) xcols ⊆ df_cols df).
  { rewrite Hcols. intros p Hp. apply elem_of_app. by left. }
  split.
  - assert (Hc : column df t = Some v).
    { apply column_member; [done|]. apply Hzip_d.
      exact (elem_of_lookup_zip_with_2 pair _ _ t v (t, v) i Ht Hv). }
    rewrite Hc in Hdsl. simpl in Hdsl. congruence.
  - destruct b.
    + destruct (Hx1 eq_refl) as (xd_list & _ & Hsub & Hexact).
      destruct Hexact as [-> _].
      * intros Hin%numbered_first_char.
        apply list_elem_of_lookup_2, block_names_first_char in Ht. congruence.
      * apply block_names_NoDup.
      * rewrite (filter_ne_lookup _ i) in Hsub by (done || apply block_names_NoDup).
        rewrite (column_members df _ (xcols ++ delete i dcols)) in Hsub; [congruence|done|..].
        -- rewrite !length_app, numbered_length, !length_delete, block_names_length
             by (by eexists). done.
        -- intros p Hp.
           rewrite (zip_with_app pair (numbered "X" (length xcols)) _ xcols) in Hp
             by apply numbered_length.
           apply elem_of_app in Hp as [Hp|Hp]; [by apply Hzip_x|].
           by apply Hzip_d, (zip_delete_subseteq _ _ i).
    + specialize (Hx0 eq_refl).
      rewrite (column_members df _ xcols) in Hx0; [congruence|done|apply numbered_length|done].
Qed.

(** X17.  On an instance made by [from_arrays], selecting the treatment named
    for column [i] of [d] makes [d] that column and [x] the covariate array,
    followed by the other columns of [d] when the other treatments are used
    as covariates. *)
Theorem from_arrays_treatment_by_treatment (n : nat) (xcols : list (list V))
    (yv : list V) (d_arr : ndarray V) (zcols : option (list (list V)))
    (b : bool) self (i : nat) (t : string) (v : list V) :
  length yv = n → shape0 d_arr = n →
  from_arrays (Arr2 n xcols) (Arr1 yv) d_arr (Arr2 n <$> zcols) b = Ok self →
  block_names "d" (length (as_columns d_arr)) !! i = Some t →
  as_columns d_arr !! i = Some v →
  ∃ self', _set_x_d self t = Ok self' ∧
    d self' = Arr1 v ∧
    x self' = Arr2 n (if b then xcols ++ delete i (as_columns d_arr) else xcols).
Proof. apply from_arrays_select. Qed.

(** X18.  As made by [from_arrays], with several treatment columns and the
    other treatments used as covariates, [x] is the covariate array followed
    by all columns of [d] but the first. *)
Theorem from_arrays_other_treatments (n : nat) (xcols : list (list V))
    (yv : list V) (d_arr : ndarray V) (zcols : option (list (list V)))
    (b : bool) self :
  length yv = n → shape0 d_arr = n →
  from_arrays (Arr2 n xcols) (Arr1 yv) d_arr (Arr2 n <$> zcols) b = Ok self →
  x self = Arr2 n (if b then xcols ++ tail (as_columns d_arr) else xcols).
Proof.
  intros Hy Hd H.
  destruct (from_arrays_fields _ _ _ _ _ _ _ Hy Hd H) as (Hinit & _ & _ & _ & Ed & _).
  destruct (init_presliced _ _ _ _ _ _ _ Hinit) as (self0 & t & _ & _ & Ht & Hset0).
  assert (Hidem : _set_x_d self t = Ok self).
  { assert (Hov : _set_x_d self t = _set_x_d self0 t).
    { pose proof Hset0 as Hs. unfold _set_x_d in *. bind_inv Hs. by injection Hs as <-. }
    by rewrite Hov. }
  rewrite Ed in Ht.
  assert (Hv : ∃ v, as_columns d_arr !! 0 = Some v).
  { pose proof (block_names_length "d" (length (as_columns d_arr))) as Hlen.
    destruct (block_names "d" (length (as_columns d_arr))); [done|].
    destruct (as_columns d_arr) as [|v ?]; [done|]. by exists v. }
  destruct Hv as [v Hv].
  destruct (from_arrays_select n xcols yv d_arr zcols b self 0 t v Hy Hd H)
    as (self' & Hset & _ & Hx).
  { by rewrite <- head_lookup. }
  { done. }
  rewrite Hidem in Hset. injection Hset as <-.
  rewrite Hx. by destruct (as_columns d_arr).
Qed.

End FromArraysInUse.

(** ** The properties above at concrete inputs *)

Lemma obj_ydx_reachable : reachable obj_ydx.
Proof.
  apply (reach_init frame_ydx (PyStr "y") (PyStr "d") PyNone PyNone true).
  vm_compute. reflexivity.
Defined.

Lemma obj_ydx_roles : roles_in_columns obj_ydx.
Proof. exact (init_roles_in_columns _ _ _ _ _ _ _ init_obj_ydx). Defined.

Lemma frame_ydx_NoDup : NoDup (columns frame_ydx).
Proof. apply (bool_decide_unpack _). vm_compute. exact I. Defined.

Lemma role_setters_accept_exactly_witness :
  ∃ self', set_x_cols obj_ydx (PyStr "x") = Ok self' ∧ _x_cols self' = ["x"].
Proof.
  apply (proj2 (proj1 (role_setters_accept_exactly obj_ydx (PyStr "x") ["x"]))).
  split; [|right; by exists "x"].
  intros c ->%list_elem_of_singleton. apply (bool_decide_unpack _). vm_compute. exact I.
Defined.

Lemma init_succeeds_exactly_witness :
  is_ok (__init__ frame_ydx (PyStr "y") (PyStr "d") PyNone PyNone true) = true.
Proof.
  apply (proj2 (init_succeeds_exactly frame_ydx (PyStr "y") (PyStr "d") PyNone PyNone true)).
  split; [reflexivity|]. split; [by exists ["d"]|]. split; [reflexivity | by left].
Defined.

Lemma init_raises_only_validation_errors_witness :
  __init__ frame_ydx (PyStr "y") (PyInt 3) PyNone PyNone true
    = Raise (Exc TypeError "d_cols must be a list") ∧
  validation_error TypeError = true.
Proof.
  assert (H : __init__ frame_ydx (PyStr "y") (PyInt 3) PyNone PyNone true
              = Raise (Exc TypeError "d_cols must be a list")) by reflexivity.
  split; [exact H|].
  exact (init_raises_only_validation_errors frame_ydx _ _ _ _ _ _ H).
Defined.

Lemma init_without_treatment_witness :
  cols_value "d_cols" (columns frame_ydx) (PyList []) = Ok [] ∧
  __init__ frame_ydx (PyStr "y") (PyList []) (PyStr "x") PyNone true
    = Raise (Exc IndexError "list index out of range").
Proof.
  apply (init_without_treatment frame_ydx (PyStr "y") (PyStr "x") PyNone true);
    [reflexivity | reflexivity | right; reflexivity].
Defined.

Lemma slicers_return_on_reachable_witness :
  (∃ self', _set_y_z obj_ydx = Ok self') ∧
  ("x" ∈ _d_cols obj_ydx → ∃ self', _set_x_d obj_ydx "x" = Ok self') ∧
  ("x" ∉ _d_cols obj_ydx → _set_x_d obj_ydx "x" = Raise (Exc AssertionError "")).
Proof. exact (slicers_return_on_reachable obj_ydx "x" obj_ydx_reachable). Defined.

Lemma selection_overrides_witness :
  ∃ self1 : DoubleMLData Z,
    _set_x_d obj_two_treatments "d2" = Ok self1 ∧
    x self1 = Arr2 2 [[5; 6]; [0; 1]]%Z ∧ x self1 ≠ x obj_two_treatments ∧
    _set_x_d self1 "d1" = _set_x_d obj_two_treatments "d1" ∧
    _set_x_d self1 "d1" = Ok obj_two_treatments ∧
    _set_x_d self1 "d2" = Ok self1.
Proof.
  eexists.
  assert (Hsel : _set_x_d obj_two_treatments "d2" = Ok ?[s1]) by (vm_compute; reflexivity).
  destruct (selection_overrides obj_two_treatments "d2" "d1" _ Hsel) as [Hov Hidem].
  split; [exact Hsel|]. split; [reflexivity|]. split; [discriminate|].
  split; [exact Hov|]. split; [|exact Hidem].
  rewrite Hov. vm_compute. reflexivity.
Defined.

Lemma covariate_slice_width_witness :
  n_columns (x obj_two_treatments) = Some 2.
Proof.
  apply (covariate_slice_width obj_two_treatments "d1" obj_two_treatments).
  - apply (init_roles_in_columns frame_two_treatments (PyStr "y")
             (PyList [PyStr "d1"; PyStr "d2"]) (PyStr "x") PyNone true).
    vm_compute. reflexivity.
  - apply (bool_decide_unpack _). vm_compute. exact I.
  - vm_compute. reflexivity.
Defined.

Lemma accessors_share_rows_witness :
  shape0 (x obj_ydx) = n_obs obj_ydx ∧ shape0 (y obj_ydx) = n_obs obj_ydx ∧
  shape0 (d obj_ydx) = n_obs obj_ydx ∧
  (∀ a, z obj_ydx = Ok (Some a) → shape0 a = n_obs obj_ydx).
Proof.
  apply (accessors_share_rows obj_ydx obj_ydx_reachable).
  unfold wf_frame. simpl. repeat constructor.
Defined.

Lemma default_covariates_witness :
  sublist (_x_cols obj_ydx) (columns frame_ydx) ∧
  (_x_cols obj_ydx ## _d_cols obj_ydx) ∧
  (_x_cols obj_ydx ## z_list obj_ydx) ∧
  (∀ c : string, c ∈ columns frame_ydx → c ∉ chars (_y_col obj_ydx) →
     c ∉ _d_cols obj_ydx → c ∉ z_list obj_ydx → c ∈ _x_cols obj_ydx).
Proof.
  apply (default_covariates frame_ydx (PyStr "y") (PyStr "d") PyNone true obj_ydx).
  vm_compute. reflexivity.
Defined.

Lemma assignment_waits_for_selection_witness :
  ∃ self1, set_d_cols obj_ydx (PyList [PyStr "d"; PyStr "x"]) = Ok self1 ∧
    _d_cols self1 = ["d"; "x"] ∧ _x_cols self1 = _x_cols obj_ydx ∧
    x self1 = x obj_ydx ∧
    ∃ self2, _set_x_d self1 "x" = Ok self2 ∧
      _d_cols self2 = _d_cols self1 ∧ slices_as_computed self2 "x" ∧
      x self2 ≠ x obj_ydx.
Proof.
  eexists.
  assert (Hset : set_d_cols obj_ydx (PyList [PyStr "d"; PyStr "x"]) = Ok ?[s1])
    by (vm_compute; reflexivity).
  pose proof (assignment_waits_for_selection obj_ydx (PyList [PyStr "d"; PyStr "x"]) _
                obj_ydx_roles frame_ydx_NoDup (or_intror Hset))
    as ((l & Hl & _ & Hd) & (Hx & _) & Hsel).
  split; [exact Hset|]. split; [reflexivity|]. split; [exact (proj2 (Hd Hset))|].
  split; [exact Hx|].
  eexists.
  match type of Hset with
  | _ = Ok ?s => assert (Hsel2 : _set_x_d s "x" = Ok ?[s2]) by (vm_compute; reflexivity)
  end.
  destruct (Hsel "x" _ Hsel2) as (_ & Hd2 & Hsl).
  split; [exact Hsel2|]. split; [exact Hd2|]. split; [exact Hsl | discriminate].
Defined.


Lemma from_arrays_counts_witness :
  ∃ self : DoubleMLData Z,
    from_arrays (Arr2 2 [[1; 2]; [3; 4]]%Z) (Arr1 [5; 6]%Z)
      (Arr2 2 [[0; 1]; [1; 0]]%Z) (Arr2 2 <$> Some [[7; 8]%Z]) true = Ok self ∧
    n_obs self = 2 ∧ n_treat self = 2 ∧
    all_variables self = ["X1"; "X2"; "y"; "d1"; "d2"; "z"] ∧
    length (all_variables self) = 6 ∧
    (∀ zc, Some [[7; 8]%Z] = Some zc → n_instr self = Ok (length zc)).
Proof.
  eexists. split; [vm_compute; reflexivity|].
  refine (from_arrays_counts 2 [[1; 2]; [3; 4]]%Z [5; 6]%Z (Arr2 2 [[0; 1]; [1; 0]]%Z)
            (Some [[7; 8]%Z]) true _ eq_refl eq_refl _).
  vm_compute. reflexivity.
Defined.

Lemma from_arrays_rows_differ_witness :
  from_arrays (Arr2 2 [[1; 2]]%Z) (Arr1 [5; 6; 7]%Z) (Arr1 [0; 1]%Z) None true =
  Raise (Exc ValueError
           "all the input array dimensions except for the concatenation axis must match exactly").
Proof.
  apply (from_arrays_rows_differ (Arr2 2 [[1; 2]]%Z) (Arr1 [5; 6; 7]%Z) (Arr1 [0; 1]%Z) true).
  left. simpl. lia.
Defined.

Lemma from_arrays_no_treatment_witness :
  from_arrays (Arr2 2 [[1; 2]]%Z) (Arr1 [5; 6]%Z) (Arr2 2 []) (Arr2 2 <$> None) true =
  Raise (Exc IndexError "list index out of range").
Proof.
  exact (from_arrays_no_treatment 2 [[1; 2]]%Z [5; 6]%Z None true eq_refl).
Defined.

Lemma frame_route_agrees_witness :
  __init__ (stacked_frame 2 [[1; 2]]%Z [5; 6]%Z [[0; 1]%Z] None) (PyStr "y")
    (PyList [PyStr "d"]) PyNone PyNone true
  = from_arrays (Arr2 2 [[1; 2]]%Z) (Arr1 [5; 6]%Z) (Arr1 [0; 1]%Z) None true.
Proof.
  exact (frame_route_agrees 2 [[1; 2]]%Z [5; 6]%Z (Arr1 [0; 1]%Z) None true eq_refl eq_refl).
Defined.

Lemma from_arrays_treatment_by_treatment_witness :
  ∃ self : DoubleMLData Z,
    from_arrays (Arr2 2 [[1; 2]]%Z) (Arr1 [5; 6]%Z) (Arr2 2 [[0; 1]; [1; 0]]%Z)
      (Arr2 2 <$> None) true = Ok self ∧
    ∃ self', _set_x_d self "d2" = Ok self' ∧
      d self' = Arr1 [1; 0]%Z ∧
      x self' = Arr2 2 [[1; 2]; [0; 1]]%Z.
Proof.
  eexists. split; [vm_compute; reflexivity|].
  refine (from_arrays_treatment_by_treatment 2 [[1; 2]]%Z [5; 6]%Z
            (Arr2 2 [[0; 1]; [1; 0]]%Z) None true _ 1 "d2" [1; 0]%Z
            eq_refl eq_refl _ _ eq_refl).
  - vm_compute. reflexivity.
  - vm_compute. reflexivity.
Defined.

Lemma from_arrays_other_treatments_witness :
  ∃ self : DoubleMLData Z,
    from_arrays (Arr2 2 [[1; 2]]%Z) (Arr1 [5; 6]%Z) (Arr2 2 [[0; 1]; [1; 0]]%Z)
      (Arr2 2 <$> None) true = Ok self ∧
    x self = Arr2 2 [[1; 2]; [1; 0]]%Z.
Proof.
  eexists. split; [vm_compute; reflexivity|].
  refine (from_arrays_other_treatments 2 [[1; 2]]%Z [5; 6]%Z
            (Arr2 2 [[0; 1]; [1; 0]]%Z) None true _ eq_refl eq_refl _).
  vm_compute. reflexivity.
Defined.
